(** * vk_validation_stats.py: a shallow embedding and its properties

    The script cross-checks four artefacts of the validation layers: the
    error database, validusage.json, the layer sources and the layer tests.
    This file embeds its four readers and the reconciliation done in [main],
    following scripts/vk_validation_stats.py function by function, and
    states the properties of the design document against that embedding.

    Conventions of the embedding:
    - a Python [str] is a [list ascii]; code points stay below 256;
    - a text file is the list of the lines its iterator yields, each line
      carrying its terminating newline (the last line of a file may lack it);
    - a Python [dict] is a [gmap], a Python [set] a [gset];
    - an uncaught exception or [sys.exit] is a [Raise] in the [result] monad. *)

From Stdlib Require Import Ascii String List ZArith Lia Bool DecimalString.
From stdpp Require Import base option list gmap strings.

Set Warnings "-register-all,-clear-no-such-hyp".
Local Open Scope nat_scope.

(* ===================================================================== *)
(** ** Python strings *)
(* ===================================================================== *)

Module PyStr.

Abbreviation pystr := (list ascii).

Definition str (s : string) : pystr := list_ascii_of_string s.

(** The characters that cannot be written inside a literal. *)
Definition dquote : ascii := "034"%char.
Definition nl : ascii := "010"%char.
Definition tab : ascii := "009"%char.

(** [str.isspace] on one code point below 256. *)
Definition is_space (c : ascii) : bool :=
  let n := nat_of_ascii c in
  ((9 <=? n) && (n <=? 13)) || ((28 <=? n) && (n <=? 32))
  || (n =? 133) || (n =? 160).

Definition in_chars (cs : pystr) (c : ascii) : bool :=
  existsb (Ascii.eqb c) cs.

Fixpoint lstrip_by (p : ascii -> bool) (s : pystr) : pystr :=
  match s with
  | [] => []
  | c :: s' => if p c then lstrip_by p s' else s
  end.

Definition rstrip_by (p : ascii -> bool) (s : pystr) : pystr :=
  rev (lstrip_by p (rev s)).

Definition strip_by (p : ascii -> bool) (s : pystr) : pystr :=
  rstrip_by p (lstrip_by p s).

(** [s.lstrip()], [s.strip()] *)
Definition lstrip : pystr -> pystr := lstrip_by is_space.
Definition strip : pystr -> pystr := strip_by is_space.

(** [s.lstrip(cs)], [s.strip(cs)] *)
Definition lstrip_chars (cs : pystr) : pystr -> pystr := lstrip_by (in_chars cs).
Definition strip_chars (cs : pystr) : pystr -> pystr := strip_by (in_chars cs).

(** [s.startswith(p)], [s.endswith(p)], [p in s] *)
Fixpoint startswith (s p : pystr) : bool :=
  match p, s with
  | [], _ => true
  | _ :: _, [] => false
  | a :: p', b :: s' => Ascii.eqb a b && startswith s' p'
  end.

Definition endswith (s p : pystr) : bool := startswith (rev s) (rev p).

Fixpoint contains (s p : pystr) : bool :=
  startswith s p ||
  match s with
  | [] => false
  | _ :: s' => contains s' p
  end.

(** [s[:-2]] *)
Definition but_last2 (s : pystr) : pystr := firstn (length s - 2) s.

(** [s.split()]: maximal runs of non-whitespace characters.  [cur] is the
    run being read, most recent character first. *)
Fixpoint split_ws_aux (cur s : pystr) : list pystr :=
  match s with
  | [] => match cur with [] => [] | _ => [rev cur] end
  | c :: s' =>
      if is_space c
      then match cur with
           | [] => split_ws_aux [] s'
           | _ => rev cur :: split_ws_aux [] s'
           end
      else split_ws_aux (c :: cur) s'
  end.

Definition split_ws (s : pystr) : list pystr := split_ws_aux [] s.

(** [s.split(sep)] for a non-empty [sep]: [skip] counts the characters of
    a matched separator still to be passed over. *)
Fixpoint split_on_aux (sep : pystr) (skip : nat) (cur s : pystr) : list pystr :=
  match s with
  | [] => [rev cur]
  | c :: s' =>
      match skip with
      | S k => split_on_aux sep k cur s'
      | O =>
          if startswith s sep
          then rev cur :: split_on_aux sep (length sep - 1) [] s'
          else split_on_aux sep 0 (c :: cur) s'
      end
  end.

Definition split_on (sep s : pystr) : list pystr := split_on_aux sep 0 [] s.

(** [s.lower()] on code points below 256: A-Z and the Latin-1 capitals. *)
Definition lower_char (c : ascii) : ascii :=
  let n := nat_of_ascii c in
  if ((65 <=? n) && (n <=? 90))
     || ((192 <=? n) && (n <=? 222) && negb (n =? 215))
  then ascii_of_nat (n + 32) else c.

Definition lower (s : pystr) : pystr := map lower_char s.

(** ['%d' % n] *)
Definition fmt_d (n : nat) : pystr :=
  str (NilEmpty.string_of_uint (Nat.to_uint n)).

(** [l[-1]] *)
Definition last_item {A} (l : list A) : option A := last l.

Definition pystr_eqb (a b : pystr) : bool := bool_decide (a = b).

(** [s in l] for a list of strings *)
Definition in_list (s : pystr) (l : list pystr) : bool :=
  existsb (pystr_eqb s) l.

End PyStr.
Import PyStr.

(* ===================================================================== *)
(** ** Exceptions *)
(* ===================================================================== *)

Inductive exn : Type :=
| IndexError
| KeyError (k : pystr)
| TypeError
| AttributeError
| ZeroDivisionError
| SystemExit (code : Z).

Inductive result (A : Type) : Type :=
| Ok (a : A)
| Raise (e : exn).
Arguments Ok {A} a.
Arguments Raise {A} e.

Definition bind {A B} (r : result A) (k : A -> result B) : result B :=
  match r with
  | Ok a => k a
  | Raise e => Raise e
  end.

Notation "'let*' x := r 'in' k" := (bind r (fun x => k))
  (at level 10, x name, r at level 100, k at level 200).

(** The markers shared by the source scanner and the test parser. *)
Definition VUID_marker : pystr := dquote :: str "VUID-".
Definition broken_tail : pystr := str "-" ++ [dquote].
Definition comment_openers : list pystr := [str "//"; str "/*"].

(** [True in [line.strip().startswith(comment) for comment in ['//', '/*']]] *)
Definition is_comment_line (line : pystr) : bool :=
  existsb (startswith (strip line)) comment_openers.

(** [prepend[:-2] + line.lstrip().lstrip(q)], [q] the double quote *)
Definition join_broken (p line : pystr) : pystr :=
  but_last2 p ++ lstrip_chars [dquote] (lstrip line).

(** [broken_vuid.startswith(VUID_marker) and broken_vuid.endswith(broken_tail)] *)
Definition is_broken_vuid (tok : pystr) : bool :=
  startswith tok VUID_marker && endswith tok broken_tail.

(* ===================================================================== *)
(** ** ValidationSource *)
(* ===================================================================== *)

Module ValidationSource.

(** [vuid_count_dict[vuid]]: ['count'] and ['file_line'] *)
Record vuid_entry : Type := mk_entry {
  count : nat;
  file_line : list pystr
}.

Record state : Type := mk_state {
  vuid_count_dict : gmap pystr vuid_entry;
  duplicate_checks : nat;
  prepend : option pystr
}.

Definition initial : state :=
  {| vuid_count_dict := ∅; duplicate_checks := 0; prepend := None |}.

Definition strip_set : pystr := str ",);{}" ++ [dquote].

(** ['%s,%d' % (sf, line_num)] *)
Definition location (sf : pystr) (line_num : nat) : pystr :=
  sf ++ str "," ++ fmt_d line_num.

(** The tokens of a line that carry the marker, each stripped. *)
Definition vuid_list (line : pystr) : list pystr :=
  map (strip_chars strip_set)
      (filter (fun tok => Is_true (contains tok VUID_marker)) (split_ws line)).

(** The body of [for vuid in vuid_list]. *)
Definition record_vuid (sf : pystr) (line_num : nat) (st : state) (vuid : pystr)
  : state :=
  match vuid_count_dict st !! vuid with
  | None =>
      {| vuid_count_dict :=
           <[vuid := {| count := 1; file_line := [location sf line_num] |}]>
             (vuid_count_dict st);
         duplicate_checks := duplicate_checks st;
         prepend := prepend st |}
  | Some e =>
      {| vuid_count_dict :=
           <[vuid := {| count := count e + 1;
                        file_line := file_line e ++ [location sf line_num] |}]>
             (vuid_count_dict st);
         duplicate_checks := duplicate_checks st + 1;
         prepend := prepend st |}
  end.

Definition set_prepend (st : state) (p : option pystr) : state :=
  {| vuid_count_dict := vuid_count_dict st;
     duplicate_checks := duplicate_checks st;
     prepend := p |}.

(** What is done with a line once a pending fragment was joined to it. *)
Definition find_vuids (sf : pystr) (line_num : nat) (st : state) (line : pystr)
  : result state :=
  if contains line VUID_marker then
    match last_item (split_ws line) with
    | None => Raise IndexError
    | Some broken_vuid =>
        if is_broken_vuid broken_vuid
        then Ok (set_prepend st (Some line))
        else Ok (fold_left (record_vuid sf line_num) (vuid_list line) st)
    end
  else Ok st.

(** One iteration of [for line in f], [line_num] already incremented. *)
Definition scan_line (sf : pystr) (line_num : nat) (st : state) (line : pystr)
  : result state :=
  if is_comment_line line then Ok st
  else match prepend st with
       | Some p => find_vuids sf line_num (set_prepend st None) (join_broken p line)
       | None => find_vuids sf line_num st line
       end.

(** [for line in f], entered with [line_num] lines already read. *)
Fixpoint scan_lines (sf : pystr) (line_num : nat) (lines : list pystr) (st : state)
  : result state :=
  match lines with
  | [] => Ok st
  | line :: rest =>
      let* st' := scan_line sf (S line_num) st line in
      scan_lines sf (S line_num) rest st'
  end.

(** [for sf in self.source_files]; a file is its path and its lines. *)
Fixpoint scan_files (files : list (pystr * list pystr)) (st : state)
  : result state :=
  match files with
  | [] => Ok st
  | (sf, lines) :: rest =>
      let* st' := scan_lines sf 0 lines st in
      scan_files rest st'
  end.

Definition parse (files : list (pystr * list pystr)) : result state :=
  scan_files files initial.

End ValidationSource.

(* ===================================================================== *)
(** ** TestParser *)
(* ===================================================================== *)

Module TestParser.

Record state : Type := mk_state {
  test_to_errors : gmap pystr (list pystr);
  grab_next_line : bool;
  testname : pystr;
  prepend : option pystr
}.

Definition initial : state :=
  {| test_to_errors := ∅; grab_next_line := false; testname := [];
     prepend := None |}.

Definition default_groups : list pystr :=
  [str "VkLayerTest"; str "VkPositiveLayerTest"; str "VkWsiEnabledLayerTest"].

(** [__init__]: ['TEST_F(%s' % tg] for each group name *)
Definition test_trigger_txt_list (groups : list pystr) : list pystr :=
  map (fun tg => str "TEST_F(" ++ tg) groups.

Definition strip_set : pystr := str ",);" ++ [dquote].

(** [testname.strip().strip(' {)')] *)
Definition clean_name (s : pystr) : pystr := strip_chars (str " {)") (strip s).

Definition set_prepend (st : state) (p : option pystr) : state :=
  {| test_to_errors := test_to_errors st; grab_next_line := grab_next_line st;
     testname := testname st; prepend := p |}.

(** [self.test_to_errors[testname] = []] after [testname] was assigned *)
Definition register (st : state) (name : pystr) : state :=
  {| test_to_errors := <[name := []]> (test_to_errors st);
     grab_next_line := grab_next_line st;
     testname := name; prepend := prepend st |}.

(** [self.test_to_errors[testname].append(sub_str.strip(...))] *)
Definition append_vuid (st : state) (sub_str : pystr) : result state :=
  match test_to_errors st !! testname st with
  | None => Raise (KeyError (testname st))
  | Some l =>
      Ok {| test_to_errors :=
              <[testname st := l ++ [strip_chars strip_set sub_str]]>
                (test_to_errors st);
            grab_next_line := grab_next_line st;
            testname := testname st; prepend := prepend st |}
  end.

Fixpoint append_vuids (st : state) (toks : list pystr) : result state :=
  match toks with
  | [] => Ok st
  | sub_str :: rest =>
      if contains sub_str VUID_marker
      then let* st' := append_vuid st sub_str in append_vuids st' rest
      else append_vuids st rest
  end.

(** The last [if] of the loop body: the identifiers of the line. *)
Definition collect (st : state) (line : pystr) : result state :=
  if contains line VUID_marker then append_vuids st (split_ws line) else Ok st.

(** [if grab_next_line:] and what follows it. *)
Definition after_trigger (st : state) (line : pystr) : result state :=
  if grab_next_line st then
    collect {| test_to_errors :=
                 <[clean_name (testname st) := []]> (test_to_errors st);
               grab_next_line := false;
               testname := clean_name (testname st);
               prepend := prepend st |} line
  else collect st line.

(** From the trigger test to the end of the loop body. *)
Definition declare (triggers : list pystr) (st : state) (line : pystr)
  : result state :=
  if existsb (contains line) triggers then
    match last_item (split_on (str ",") line) with
    | None => Raise IndexError
    | Some field =>
        match clean_name field with
        | [] =>
            Ok {| test_to_errors := test_to_errors st; grab_next_line := true;
                  testname := []; prepend := prepend st |}
        | name => after_trigger (register st name) line
        end
    end
  else after_trigger st line.

(** The broken-identifier test, then the rest of the body. *)
Definition check_broken (triggers : list pystr) (st : state) (line : pystr)
  : result state :=
  if contains line VUID_marker then
    match last_item (split_ws line) with
    | None => Raise IndexError
    | Some broken_vuid =>
        if is_broken_vuid broken_vuid
        then Ok (set_prepend st (Some line))
        else declare triggers st line
    end
  else declare triggers st line.

(** One iteration of [for line in tf]. *)
Definition parse_line (triggers : list pystr) (st : state) (line : pystr)
  : result state :=
  if is_comment_line line then Ok st
  else match prepend st with
       | Some p => check_broken triggers (set_prepend st None) (join_broken p line)
       | None => check_broken triggers st line
       end.

Fixpoint parse_lines (triggers : list pystr) (lines : list pystr) (st : state)
  : result state :=
  match lines with
  | [] => Ok st
  | line :: rest =>
      let* st' := parse_line triggers st line in
      parse_lines triggers rest st'
  end.

(** [for test_file in self.test_files]; a file is the list of its lines. *)
Fixpoint parse_files (triggers : list pystr) (files : list (list pystr))
  (st : state) : result state :=
  match files with
  | [] => Ok st
  | lines :: rest =>
      let* st' := parse_lines triggers lines st in
      parse_files triggers rest st'
  end.

Definition parse (groups : list pystr) (files : list (list pystr))
  : result state :=
  parse_files (test_trigger_txt_list groups) files initial.

End TestParser.

(* ===================================================================== *)
(** ** ValidationDatabase *)
(* ===================================================================== *)

Module ValidationDatabase.

Record db_entry : Type := mk_entry {
  error_enum : pystr;
  check_implemented : pystr;
  testname : pystr;
  api : pystr;
  core_ext : pystr;
  error_string : pystr;
  note : pystr
}.

(** The object after [__init__], with the lines printed by [read]. *)
Record state : Type := mk_state {
  db_dict : gmap pystr db_entry;
  db_vuid_to_tests : gmap pystr (list pystr);
  db_implemented_vuids : gset pystr;
  db_unimplemented_implicit : gset pystr;
  db_invalid_implemented : gset pystr;
  stdout : list pystr
}.

Definition initial : state :=
  {| db_dict := ∅; db_vuid_to_tests := ∅; db_implemented_vuids := ∅;
     db_unimplemented_implicit := ∅; db_invalid_implemented := ∅;
     stdout := [] |}.

Definition delimiter : pystr := str "~^~".

Definition bad_line_message (line : pystr) : pystr :=
  str "ERROR: Bad database line doesn't have 8 elements: " ++ line.

(** [l[i]] *)
Definition item (l : list pystr) (i : nat) : result pystr :=
  match l !! i with
  | Some x => Ok x
  | None => Raise IndexError
  end.

Definition print (st : state) (msg : pystr) : state :=
  {| db_dict := db_dict st; db_vuid_to_tests := db_vuid_to_tests st;
     db_implemented_vuids := db_implemented_vuids st;
     db_unimplemented_implicit := db_unimplemented_implicit st;
     db_invalid_implemented := db_invalid_implemented st;
     stdout := stdout st ++ [msg] |}.

(** The assignments from [self.db_dict[vuid_string] = {}] onwards. *)
Definition store (st : state) (vuid_string : pystr) (e : db_entry) : state :=
  let implemented := check_implemented e in
  {| db_dict := <[vuid_string := e]> (db_dict st);
     db_vuid_to_tests :=
       (if in_list (lower (testname e))
                   [str "unknown"; str "none"; str "nottestable"]
        then db_vuid_to_tests st
        else <[vuid_string := split_on (str ",") (testname e)]>
               (db_vuid_to_tests st));
     db_implemented_vuids :=
       (if pystr_eqb (str "Y") implemented
        then {[vuid_string]} ∪ db_implemented_vuids st
        else db_implemented_vuids st);
     db_unimplemented_implicit :=
       (if pystr_eqb (str "Y") implemented then db_unimplemented_implicit st
        else if contains (note e) (str "implicit")
             then {[vuid_string]} ∪ db_unimplemented_implicit st
             else db_unimplemented_implicit st);
     db_invalid_implemented :=
       (if in_list implemented [str "Y"; str "N"]
        then db_invalid_implemented st
        else {[vuid_string]} ∪ db_invalid_implemented st);
     stdout := stdout st |}.

(** One iteration of [for line in infile]. *)
Definition read_line (st : state) (raw : pystr) : result state :=
  let line := strip raw in
  if startswith line (str "#") || pystr_eqb [] line then Ok st
  else
    let db_line := split_on delimiter line in
    let st1 := if length db_line =? 8 then st
               else print st (bad_line_message line) in
    let* error_enum := item db_line 0 in
    let* implemented := item db_line 1 in
    let* testname := item db_line 2 in
    let* api := item db_line 3 in
    let* vuid_string := item db_line 4 in
    let* core_ext := item db_line 5 in
    let* error_str := item db_line 6 in
    let* note := item db_line 7 in
    Ok (store st1 vuid_string
          {| error_enum := error_enum; check_implemented := implemented;
             testname := testname; api := api; core_ext := core_ext;
             error_string := error_str; note := note |}).

Fixpoint read_lines (lines : list pystr) (st : state) : result state :=
  match lines with
  | [] => Ok st
  | line :: rest => let* st' := read_line st line in read_lines rest st'
  end.

Definition read (lines : list pystr) : result state := read_lines lines initial.

End ValidationDatabase.

(* ===================================================================== *)
(** ** ValidationJSON *)
(* ===================================================================== *)

Module ValidationJSON.

(** What [json.load] returns; numbers are kept to the integers. *)
Inductive json : Type :=
| JNull
| JBool (b : bool)
| JNum (n : Z)
| JStr (s : pystr)
| JArr (elems : list json)
| JObj (items : list (pystr * json)).

(** The hashable values, up to Python equality: [True == 1], [False == 0]. *)
Inductive scalar : Type :=
| SNone
| SInt (n : Z)
| SStr (s : pystr).

#[global] Instance scalar_eq_dec : EqDecision scalar.
Proof. solve_decision. Defined.

Definition scalar_to_sum (x : scalar) : unit + Z + pystr :=
  match x with
  | SNone => inl (inl tt)
  | SInt n => inl (inr n)
  | SStr s => inr s
  end.

Definition scalar_of_sum (x : unit + Z + pystr) : scalar :=
  match x with
  | inl (inl _) => SNone
  | inl (inr n) => SInt n
  | inr s => SStr s
  end.

#[global] Instance scalar_countable : Countable scalar.
Proof.
  refine (inj_countable' scalar_to_sum scalar_of_sum _).
  intros []; reflexivity.
Defined.

(** [hash(v)]: fails on lists and dicts. *)
Definition to_scalar (v : json) : result scalar :=
  match v with
  | JNull => Ok SNone
  | JBool b => Ok (SInt (if b then 1 else 0)%Z)
  | JNum n => Ok (SInt n)
  | JStr s => Ok (SStr s)
  | JArr _ | JObj _ => Raise TypeError
  end.

Definition vuid_key : pystr := str "vuid".

(** The values yielded by the generator, in the order they are yielded. *)
Fixpoint ExtractVUIDs (d : json) : list json :=
  match d with
  | JObj items =>
      flat_map
        (fun kv =>
           match kv with
           | (k, v) =>
               if pystr_eqb k vuid_key then [v]
               else match v with
                    | JObj _ => ExtractVUIDs v
                    | JArr elems => flat_map ExtractVUIDs elems
                    | _ => []
                    end
           end)
        items
  | _ => []
  end.

(** [len(self.json_dict)] *)
Definition py_len (d : json) : result nat :=
  match d with
  | JObj items => Ok (length items)
  | JArr elems => Ok (length elems)
  | JStr s => Ok (length s)
  | _ => Raise TypeError
  end.

(** [for vuid_string in ...: self.vuids.add(vuid_string)] *)
Fixpoint add_all (vs : list json) (vuids : gset scalar) : result (gset scalar) :=
  match vs with
  | [] => Ok vuids
  | v :: rest => let* x := to_scalar v in add_all rest ({[x]} ∪ vuids)
  end.

(** [read]: the argument is the parsed content of the file when
    [os.path.isfile] holds, [None] when it does not, in which case
    [self.json_dict] was never assigned. *)
Definition read (file : option json) : result (gset scalar) :=
  match file with
  | None => Raise AttributeError
  | Some json_dict =>
      let* n := py_len json_dict in
      if n =? 0 then Raise (SystemExit (-1))
      else add_all (ExtractVUIDs json_dict) ∅
  end.

End ValidationJSON.

(* ===================================================================== *)
(** ** main *)
(* ===================================================================== *)

Module Main.

Import ValidationJSON.

Definition quoted (s : string) : pystr := dquote :: str s ++ [dquote].

(** The list is written in the script with the double quotes inside the
    string literals. *)
Definition duplicate_exceptions : list pystr :=
  [ quoted "VUID-vkDestroyInstance-instance-00629";
    quoted "VUID-vkDestroyDevice-device-00378";
    quoted "VUID-VkCommandBufferBeginInfo-flags-00055";
    quoted "VUID-VkRenderPassCreateInfo-attachment-00833";
    quoted "VUID-VkPipelineShaderStageCreateInfo-module-parameter";
    quoted "VUID-VkMappedMemoryRange-memory-parameter";
    quoted "VUID-VkImageSubresource-aspectMask-parameter";
    quoted "VUID-VkWriteDescriptorSet-descriptorType-00325";
    quoted "VUID-vkCmdClearColorImage-image-00007";
    quoted "VUID-vkCmdSetScissor-x-00595";
    quoted "VUID-VkSwapchainCreateInfoKHR-surface-parameter";
    quoted "VUID-VkSwapchainCreateInfoKHR-oldSwapchain-parameter";
    quoted "VUID-VkSwapchainCreateInfoKHR-imageFormat-01273";
    quoted "VUID-VkWriteDescriptorSet-descriptorType-00330" ].

(** What [main] computes; the lists and sets are the ones it prints. *)
Record report : Type := mk_report {
  result_code : Z;
  db_missing : gset scalar;
  json_missing : gset scalar;
  imp_not_found : gset pystr;
  imp_not_claimed : gset pystr;
  multiple_uses : bool;
  listed_duplicates : list (pystr * ValidationSource.vuid_entry);
  bad_testnames : list pystr;
  tests_missing_vuid : gmap pystr (list pystr)
}.

(** [count > 1 and src_vuid not in duplicate_exceptions] *)
Definition is_duplicate (kv : pystr * ValidationSource.vuid_entry) : bool :=
  (1 <? ValidationSource.count kv.2) && negb (in_list kv.1 duplicate_exceptions).

(** The (vuid, testname) pairs visited by the two nested loops over
    [db_vuid_to_tests]. *)
Definition claimed_tests (m : gmap pystr (list pystr)) : list (pystr * pystr) :=
  flat_map (fun kv => map (fun t => (kv.1, t)) kv.2) (map_to_list m).

(** The body of the inner loop for a test name that is in the test map. *)
Definition note_missing (tests : gmap pystr (list pystr))
  (acc : gmap pystr (list pystr)) (vt : pystr * pystr) : gmap pystr (list pystr) :=
  match tests !! vt.2 with
  | None => acc
  | Some test_vuids =>
      if in_list vt.1 test_vuids then acc
      else <[vt.2 := default [] (acc !! vt.2) ++ [vt.1]]> acc
  end.

(** [main] from the comment "Process stats" to [return result]; the dicts
    are visited in the order of [map_to_list], which only orders the
    output. *)
Definition reconcile (verbose_mode : bool)
  (val_db : ValidationDatabase.state) (vuids : gset scalar)
  (val_source : ValidationSource.state) (test_parser : TestParser.state)
  : result report :=
  let db_dict := ValidationDatabase.db_dict val_db in
  let implemented := ValidationDatabase.db_implemented_vuids val_db in
  let invalid := ValidationDatabase.db_invalid_implemented val_db in
  let vuid_count_dict := ValidationSource.vuid_count_dict val_source in
  let test_to_errors := TestParser.test_to_errors test_parser in
  let result0 := 0%Z in
  let num_db_vuids := size db_dict in
  let num_json_vuids := size vuids in
  let* result1 :=
    (if 0 <? size invalid then
       match filter (fun k => db_dict !! k = None) (elements invalid) with
       | k :: _ => Raise (KeyError k)
       | [] => Ok 1%Z
       end
     else Ok result0) in
  let db_keys : gset scalar := set_map SStr (dom db_dict) in
  let db_missing := vuids ∖ db_keys in
  let json_missing := db_keys ∖ vuids in
  let result2 :=
    if (num_db_vuids =? num_json_vuids) && (size db_missing =? 0)
       && (size json_missing =? 0)
    then result1 else 1%Z in
  let imp_vuids := dom vuid_count_dict in
  let imp_not_found := implemented ∖ imp_vuids in
  let imp_not_claimed := imp_vuids ∖ implemented in
  let multiple_uses := existsb is_duplicate (map_to_list vuid_count_dict) in
  let* _ :=
    (if verbose_mode && (num_db_vuids =? 0)
     then Raise ZeroDivisionError else Ok tt) in
  let result3 :=
    if (size imp_not_found =? 0) && (size imp_not_claimed =? 0)
    then result2 else 1%Z in
  let claimed := claimed_tests (ValidationDatabase.db_vuid_to_tests val_db) in
  let bad_testnames :=
    map snd (filter (fun vt => test_to_errors !! vt.2 = None) claimed) in
  let tests_missing_vuid := fold_left (note_missing test_to_errors) claimed ∅ in
  let result4 := if length bad_testnames =? 0 then result3 else 1%Z in
  Ok {| result_code := result4;
        db_missing := db_missing; json_missing := json_missing;
        imp_not_found := imp_not_found; imp_not_claimed := imp_not_claimed;
        multiple_uses := multiple_uses;
        listed_duplicates :=
          (if multiple_uses && verbose_mode
           then List.filter is_duplicate (map_to_list vuid_count_dict)
           else []);
        bad_testnames := bad_testnames;
        tests_missing_vuid := tests_missing_vuid |}.

(** [main]: the four readers, then the reconciliation.  The arguments are
    the contents of the files the script opens. *)
Definition main (verbose_mode : bool) (db_lines : list pystr)
  (json_file : option json) (source_files : list (pystr * list pystr))
  (test_lines : list pystr) : result report :=
  let* val_db := ValidationDatabase.read db_lines in
  let* vuids := ValidationJSON.read json_file in
  let* val_source := ValidationSource.parse source_files in
  let* test_parser := TestParser.parse TestParser.default_groups [test_lines] in
  reconcile verbose_mode val_db vuids val_source test_parser.

(** The status the process ends with under [sys.exit(main(...))]. *)
Definition exit_status (r : result report) : Z :=
  match r with
  | Ok rep => result_code rep
  | Raise (SystemExit code) => (code mod 256)%Z
  | Raise _ => 1%Z
  end.

End Main.

(* ===================================================================== *)
(** ** Facts on Python strings *)
(* ===================================================================== *)

Section StringFacts.

Implicit Types s p a b cur : pystr.

Lemma startswith_iff s p : startswith s p = true <-> exists r, s = p ++ r.
Proof.
  revert s; induction p as [|c p IH]; intros s; simpl.
  - split; [intros _; by exists s|intros _; by destruct s].
  - destruct s as [|d s]; simpl.
    + split; [done|intros [r Hr]; discriminate].
    + rewrite andb_true_iff, Ascii.eqb_eq, IH. split.
      * intros [-> [r ->]]. by exists r.
      * intros [r Hr]. injection Hr as -> ->. split; [done|by exists r].
Qed.

Lemma startswith_app p r : startswith (p ++ r) p = true.
Proof. apply startswith_iff. eauto. Qed.

Lemma contains_iff s p : contains s p = true <-> exists a b, s = a ++ p ++ b.
Proof.
  induction s as [|c s IH].
  - cbn [contains]. rewrite orb_false_r, startswith_iff. split.
    + intros [r Hr]. exists [], r. done.
    + intros (a & b & Hab). destruct a; [eauto|discriminate].
  - cbn [contains]. rewrite orb_true_iff, startswith_iff, IH. split.
    + intros [[r Hr]|(a & b & Hab)].
      * exists [], r. done.
      * exists (c :: a), b. rewrite Hab. done.
    + intros (a & b & Hab). destruct a as [|d a].
      * left. eauto.
      * right. injection Hab as -> ->. eauto.
Qed.

Lemma contains_middle a p b : contains (a ++ p ++ b) p = true.
Proof. apply contains_iff. eauto. Qed.

Lemma endswith_app a p : endswith (a ++ p) p = true.
Proof. unfold endswith. rewrite rev_app_distr. apply startswith_app. Qed.

(** *** [split] *)

Lemma split_ws_aux_cur cur s : cur <> [] -> split_ws_aux cur s <> [].
Proof.
  revert cur; induction s as [|c s IH]; intros cur Hcur; simpl.
  - destruct cur; done.
  - destruct (is_space c).
    + destruct cur; done.
    + apply IH. done.
Qed.

Lemma split_ws_aux_black cur s :
  Exists (fun c => is_space c = false) s -> split_ws_aux cur s <> [].
Proof.
  intros H; revert cur; induction H as [c s Hc|c s _ IH]; intros cur; simpl.
  - rewrite Hc. apply split_ws_aux_cur. done.
  - destruct (is_space c).
    + destruct cur; [apply IH|done].
    + apply IH.
Qed.

(** A line that carries the marker has at least one token. *)
Lemma marker_has_token line :
  contains line VUID_marker = true -> is_Some (last_item (split_ws line)).
Proof.
  intros (a & b & ->)%contains_iff. apply last_is_Some.
  apply split_ws_aux_black. apply Exists_app. right.
  apply Exists_cons_hd. reflexivity.
Qed.

(** After a whitespace character the run being read starts afresh. *)
Lemma split_ws_aux_space cur s w r :
  is_space w = true ->
  split_ws_aux cur (s ++ w :: r) = split_ws_aux cur (s ++ [w]) ++ split_ws r.
Proof.
  intros Hw. revert cur; induction s as [|c s IH]; intros cur; simpl.
  - rewrite Hw. destruct cur; done.
  - destruct (is_space c).
    + destruct cur; simpl; by rewrite IH.
    + apply IH.
Qed.

Lemma split_ws_aux_token cur tok :
  Forall (fun c => is_space c = false) tok ->
  split_ws_aux cur tok = match rev cur ++ tok with [] => [] | t => [t] end.
Proof.
  intros H; revert cur; induction H as [|c tok Hc _ IH]; intros cur; simpl.
  - rewrite app_nil_r. destruct cur as [|d cur]; [done|].
    simpl. destruct (rev cur ++ [d]) eqn:E; [|done].
    by destruct (rev cur).
  - rewrite Hc, IH. simpl. by rewrite <- app_assoc.
Qed.

Lemma split_ws_aux_all_space cur s :
  Forall (fun c => is_space c = true) s ->
  split_ws_aux cur s = match cur with [] => [] | _ => [rev cur] end.
Proof.
  intros H; revert cur; induction H as [|c s Hc _ IH]; intros cur; simpl.
  - done.
  - rewrite Hc, IH. destruct cur; done.
Qed.

(** *** [strip] *)

Lemma lstrip_by_head f s c r : lstrip_by f s = c :: r -> f c = false.
Proof.
  induction s as [|d s IH]; simpl; [done|].
  destruct (f d) eqn:E; [done|]. intros [= -> _]. done.
Qed.

Lemma lstrip_by_suffix f s : exists a, s = a ++ lstrip_by f s /\ Forall (fun c => f c = true) a.
Proof.
  induction s as [|d s (a & Ha & Hall)]; simpl.
  - exists []. done.
  - destruct (f d) eqn:E.
    + exists (d :: a). split; [simpl; congruence|by constructor].
    + exists []. done.
Qed.

Lemma lstrip_by_all f a s :
  Forall (fun c => f c = true) a -> lstrip_by f (a ++ s) = lstrip_by f s.
Proof. induction 1 as [|c a Hc _ IH]; simpl; [done|by rewrite Hc]. Qed.

Lemma lstrip_by_stop f c s : f c = false -> lstrip_by f (c :: s) = c :: s.
Proof. intros H; simpl; by rewrite H. Qed.

(** What is left of a stripped string does not begin with a stripped
    character. *)
Lemma strip_by_head f s c r : strip_by f s = c :: r -> f c = false.
Proof.
  unfold strip_by, rstrip_by. intros H.
  destruct (lstrip_by_suffix f (rev (lstrip_by f s))) as (a & Ha & Hall).
  assert (lstrip_by f s = rev (lstrip_by f (rev (lstrip_by f s))) ++ rev a) as E.
  { rewrite <- rev_app_distr, <- Ha, rev_involutive. done. }
  rewrite H in E. simpl in E. eapply lstrip_by_head. exact E.
Qed.

End StringFacts.

(* ===================================================================== *)
(** ** The source scanner always returns, and what it preserves *)
(* ===================================================================== *)

Section ScanInvariant.

Import ValidationSource.

(** A property of scanner states kept by each recorded occurrence and by
    the assignments to [prepend] is kept by the whole scan, which returns. *)
Variable P : state -> Prop.
Hypothesis P_record : forall sf n st tok,
  P st -> P (record_vuid sf n st (strip_chars strip_set tok)).
Hypothesis P_prepend : forall st p, P st -> P (set_prepend st p).

Lemma record_all_inv sf n toks st :
  P st -> P (fold_left (record_vuid sf n) (map (strip_chars strip_set) toks) st).
Proof. revert st; induction toks as [|t toks IH]; simpl; auto. Qed.

Lemma find_vuids_inv sf n st line :
  P st -> exists st', find_vuids sf n st line = Ok st' /\ P st'.
Proof.
  intros HP. unfold find_vuids.
  destruct (contains line VUID_marker) eqn:Hc; [|eauto].
  destruct (marker_has_token line Hc) as [tok ->].
  destruct (is_broken_vuid tok); eauto using record_all_inv.
Qed.

Lemma scan_line_inv sf n st line :
  P st -> exists st', scan_line sf n st line = Ok st' /\ P st'.
Proof.
  intros HP. unfold scan_line.
  destruct (is_comment_line line); [eauto|].
  destruct (prepend st); auto using find_vuids_inv.
Qed.

Lemma scan_lines_inv sf n lines st :
  P st -> exists st', scan_lines sf n lines st = Ok st' /\ P st'.
Proof.
  revert n st; induction lines as [|l lines IH]; intros n st HP; simpl; [eauto|].
  destruct (scan_line_inv sf (S n) st l HP) as (st1 & -> & HP1). simpl. auto.
Qed.

Lemma scan_files_inv files st :
  P st -> exists st', scan_files files st = Ok st' /\ P st'.
Proof.
  revert st; induction files as [|[sf lines] files IH]; intros st HP; simpl; [eauto|].
  destruct (scan_lines_inv sf 0 lines st HP) as (st1 & -> & HP1). simpl. auto.
Qed.

End ScanInvariant.

Section SourceFacts.

Import ValidationSource.

Lemma scan_files_total files st : exists st', scan_files files st = Ok st'.
Proof.
  destruct (scan_files_inv (fun _ => True) (fun _ _ _ _ _ => I) (fun _ _ _ => I)
              files st I) as (st' & H & _). eauto.
Qed.

Lemma scan_lines_total sf n lines st : exists st', scan_lines sf n lines st = Ok st'.
Proof.
  destruct (scan_lines_inv (fun _ => True) (fun _ _ _ _ _ => I) (fun _ _ _ => I)
              sf n lines st I) as (st' & H & _). eauto.
Qed.

(** The count of an entry is the length of its list of locations. *)
Definition entry_ok (e : vuid_entry) : Prop :=
  count e = length (file_line e) /\ 1 <= count e.

Definition dict_ok (st : state) : Prop :=
  map_Forall (fun _ e => entry_ok e) (vuid_count_dict st).

(** Each update of the occurrence map keeps the count of every entry
    equal to the number of its locations. *)
Lemma record_vuid_ok sf n st vuid : dict_ok st -> dict_ok (record_vuid sf n st vuid).
Proof.
  unfold dict_ok, record_vuid. intros H.
  destruct (vuid_count_dict st !! vuid) as [e|] eqn:E; simpl.
  - apply map_Forall_insert_2; [|done].
    destruct (H _ _ E) as [H1 H2]. unfold entry_ok; simpl.
    rewrite length_app; simpl. lia.
  - apply map_Forall_insert_2; [|done]. unfold entry_ok; simpl. lia.
Qed.

End SourceFacts.

(** C10. After [ValidationSource.parse] on any list of files, which always
    returns, every identifier of the occurrence map has a count equal to
    the length of its list of (file, line) locations, and at least 1. *)
Theorem occurrence_count_invariant (files : list (pystr * list pystr)) :
  exists st, ValidationSource.parse files = Ok st /\
    map_Forall (fun _ e =>
        ValidationSource.count e = length (ValidationSource.file_line e)
        /\ 1 <= ValidationSource.count e)
      (ValidationSource.vuid_count_dict st).
Proof.
  apply (scan_files_inv dict_ok).
  - intros. by apply record_vuid_ok.
  - intros st p H. exact H.
  - apply map_Forall_empty.
Qed.

(* ===================================================================== *)
(** ** Rejoining an identifier broken over two lines *)
(* ===================================================================== *)

Section ReflowStrings.

Implicit Types s p a b cur body mid ws rest tok : pystr.

Lemma split_ws_aux_token_space cur tok w :
  Forall (fun c => is_space c = false) tok -> is_space w = true ->
  split_ws_aux cur (tok ++ [w]) = match rev cur ++ tok with [] => [] | t => [t] end.
Proof.
  intros H Hw; revert cur; induction H as [|c tok Hc _ IH]; intros cur; simpl.
  - rewrite Hw, app_nil_r. destruct cur as [|d cur]; [done|].
    simpl. destruct (rev cur ++ [d]) eqn:E; [|done]. by destruct (rev cur).
  - rewrite Hc, IH. simpl. by rewrite <- app_assoc.
Qed.

(** The last token of a line that ends with [tok] and a newline. *)
Lemma last_token body tok :
  (body = [] \/ exists b w, body = b ++ [w] /\ is_space w = true) ->
  Forall (fun c => is_space c = false) tok -> tok <> [] ->
  last_item (split_ws (body ++ tok ++ [nl])) = Some tok.
Proof.
  intros Hbody Htok Hne. unfold last_item, split_ws.
  assert (split_ws_aux [] (tok ++ [nl]) = [tok]) as E.
  { rewrite split_ws_aux_token_space by done. simpl. by destruct tok. }
  destruct Hbody as [->|(b & w & -> & Hw)].
  - simpl. by rewrite E.
  - rewrite <- app_assoc. simpl. rewrite split_ws_aux_space by done.
    unfold split_ws. rewrite E. apply last_snoc.
Qed.

Lemma broken_token mid : is_broken_vuid (VUID_marker ++ mid ++ broken_tail) = true.
Proof.
  unfold is_broken_vuid. rewrite startswith_app, andb_true_l.
  rewrite app_assoc. apply endswith_app.
Qed.

Lemma but_last2_snoc2 s x y : but_last2 (s ++ [x; y]) = s.
Proof.
  unfold but_last2. rewrite length_app. simpl.
  replace (length s + 2 - 2) with (length s) by lia.
  apply take_app_length.
Qed.

Lemma lstrip_by_keep f u c v :
  f c = false -> lstrip_by f (u ++ c :: v) = lstrip_by f (u ++ [c]) ++ v.
Proof.
  intros Hc. induction u as [|d u IH]; simpl.
  - by rewrite Hc.
  - destruct (f d); [done|]. simpl. by rewrite <- app_assoc.
Qed.

Lemma lstrip_by_snoc f u c :
  f c = false -> exists y, lstrip_by f (u ++ [c]) = y ++ [c].
Proof.
  intros Hc. induction u as [|d u IH]; simpl.
  - rewrite Hc. by exists [].
  - destruct (f d); [done|]. by exists (d :: u).
Qed.

Lemma lstrip_by_snoc_eq f u c :
  f c = false -> lstrip_by f (u ++ [c]) = lstrip_by f u ++ [c].
Proof.
  intros Hc. induction u as [|d u IH]; simpl.
  - by rewrite Hc.
  - by destruct (f d).
Qed.

Lemma rstrip_by_keep f x c y :
  f c = false -> rstrip_by f (x ++ c :: y) = x ++ c :: rstrip_by f y.
Proof.
  intros Hc. unfold rstrip_by.
  rewrite rev_app_distr. simpl. rewrite <- app_assoc. simpl.
  rewrite lstrip_by_keep, lstrip_by_snoc_eq by done.
  rewrite !rev_app_distr, rev_involutive. done.
Qed.

(** The stripped form of a line up to and including a double quote of it. *)
Lemma strip_through_quote body :
  exists y, forall t : pystr, strip (body ++ dquote :: t) = y ++ dquote :: rstrip_by is_space t.
Proof.
  destruct (lstrip_by_snoc is_space body dquote eq_refl) as [y Hy].
  exists y. intros t'. unfold strip, strip_by.
  rewrite lstrip_by_keep, Hy by done. rewrite <- app_assoc. simpl.
  by rewrite rstrip_by_keep.
Qed.

Lemma startswith_nil s : startswith s [] = true.
Proof. by destruct s. Qed.

Lemma startswith2_through_quote y z1 z2 c1 c2 :
  c1 <> dquote -> c2 <> dquote ->
  startswith (y ++ dquote :: z1) [c1; c2] = startswith (y ++ dquote :: z2) [c1; c2].
Proof.
  intros H1 H2. destruct y as [|y1 [|y2 y]]; simpl.
  - destruct (Ascii.eqb_spec c1 dquote); [contradiction|reflexivity].
  - destruct (Ascii.eqb_spec c2 dquote); [contradiction|]. by rewrite !andb_false_r.
  - by rewrite !startswith_nil.
Qed.

(** Whether a line is skipped as a comment is settled before its first
    double quote. *)
Lemma comment_before_quote body t1 t2 :
  is_comment_line (body ++ dquote :: t1) = is_comment_line (body ++ dquote :: t2).
Proof.
  destruct (strip_through_quote body) as [y Hy].
  unfold is_comment_line, comment_openers. rewrite !Hy. cbn [existsb].
  f_equal; [|f_equal]; by apply startswith2_through_quote.
Qed.

Lemma quote_line_not_comment ws rest :
  Forall (fun c => is_space c = true) ws ->
  is_comment_line (ws ++ dquote :: rest) = false.
Proof.
  intros Hws. unfold is_comment_line, strip, strip_by.
  rewrite lstrip_by_all by done. rewrite lstrip_by_stop by done.
  change (dquote :: rest) with ([] ++ dquote :: rest).
  rewrite rstrip_by_keep by done. reflexivity.
Qed.

(** Joining the pending line with the line that follows it gives the
    line as it reads unbroken. *)
Lemma join_broken_eq body mid ws rest :
  Forall (fun c => is_space c = true) ws ->
  head rest <> Some dquote ->
  join_broken (body ++ (VUID_marker ++ mid ++ broken_tail) ++ [nl]) (ws ++ dquote :: rest)
  = body ++ VUID_marker ++ mid ++ str "-" ++ rest.
Proof.
  intros Hws Hrest. unfold join_broken, broken_tail.
  replace (body ++ (VUID_marker ++ mid ++ str "-" ++ [dquote]) ++ [nl])
    with ((body ++ VUID_marker ++ mid ++ str "-") ++ [dquote; nl])
    by (rewrite <- !app_assoc; reflexivity).
  rewrite but_last2_snoc2. rewrite <- !app_assoc. do 3 f_equal.
  unfold lstrip, lstrip_chars.
  rewrite lstrip_by_all by done. rewrite lstrip_by_stop by done.
  simpl. destruct rest as [|c rest]; [done|].
  simpl. destruct (Ascii.eqb_spec c dquote) as [->|]; [done|]. done.
Qed.

End ReflowStrings.

Section Reflow.

Import ValidationSource.

(** The identifiers found with the number of times each was found. *)
Definition counts (st : state) : gmap pystr nat := count <$> vuid_count_dict st.

(** Two scanner states that differ at most in the recorded locations. *)
Definition same_counts (st1 st2 : state) : Prop :=
  counts st1 = counts st2
  /\ duplicate_checks st1 = duplicate_checks st2
  /\ prepend st1 = prepend st2.

Definition both_ok (r1 r2 : result state) : Prop :=
  exists st1 st2, r1 = Ok st1 /\ r2 = Ok st2 /\ same_counts st1 st2.

(** The fragment pending once [files] and then the lines [pre] of the file
    [sf] have been scanned; the scan always returns ([scan_files_total],
    [scan_lines_total]), so the second branch is never taken. *)
Definition pending_before (files : list (pystr * list pystr)) (sf : pystr)
  (pre : list pystr) : option pystr :=
  match (let* st := scan_files files initial in scan_lines sf 0 pre st) with
  | Ok st => prepend st
  | Raise _ => None
  end.

Lemma same_counts_refl st : same_counts st st.
Proof. by repeat split. Qed.

Lemma record_vuid_same sf1 n1 sf2 n2 st1 st2 vuid :
  same_counts st1 st2 ->
  same_counts (record_vuid sf1 n1 st1 vuid) (record_vuid sf2 n2 st2 vuid).
Proof.
  intros (Hc & Hd & Hp). unfold same_counts, counts, record_vuid in *.
  assert (count <$> (vuid_count_dict st1 !! vuid)
          = count <$> (vuid_count_dict st2 !! vuid)) as E.
  { by rewrite <- !lookup_fmap, Hc. }
  destruct (vuid_count_dict st1 !! vuid) as [e1|],
           (vuid_count_dict st2 !! vuid) as [e2|]; simpl in *; try done.
  - injection E as E. rewrite !fmap_insert. simpl. by rewrite Hc, Hd, E.
  - rewrite !fmap_insert. simpl. by rewrite Hc.
Qed.

Lemma record_all_same sf1 n1 sf2 n2 vuids st1 st2 :
  same_counts st1 st2 ->
  same_counts (fold_left (record_vuid sf1 n1) vuids st1)
              (fold_left (record_vuid sf2 n2) vuids st2).
Proof.
  revert st1 st2; induction vuids as [|v vuids IH]; intros st1 st2 H; simpl; [done|].
  apply IH. by apply record_vuid_same.
Qed.

Lemma set_prepend_same st1 st2 p :
  same_counts st1 st2 -> same_counts (set_prepend st1 p) (set_prepend st2 p).
Proof. intros (Hc & Hd & Hp). by repeat split. Qed.

Lemma find_vuids_same sf1 n1 sf2 n2 st1 st2 line :
  same_counts st1 st2 ->
  both_ok (find_vuids sf1 n1 st1 line) (find_vuids sf2 n2 st2 line).
Proof.
  intros H. unfold find_vuids, both_ok.
  destruct (contains line VUID_marker) eqn:Hc; [|eauto 6].
  destruct (marker_has_token line Hc) as [tok ->].
  destruct (is_broken_vuid tok).
  - eauto 6 using set_prepend_same.
  - eauto 6 using record_all_same.
Qed.

Lemma scan_line_same sf1 n1 sf2 n2 st1 st2 line :
  same_counts st1 st2 ->
  both_ok (scan_line sf1 n1 st1 line) (scan_line sf2 n2 st2 line).
Proof.
  intros H. unfold scan_line.
  destruct (is_comment_line line); [unfold both_ok; eauto 6|].
  pose proof H as (_ & _ & Hp). rewrite Hp.
  destruct (prepend st2); apply find_vuids_same; [by apply set_prepend_same|done].
Qed.

Lemma scan_lines_same sf1 n1 sf2 n2 lines st1 st2 :
  same_counts st1 st2 ->
  both_ok (scan_lines sf1 n1 lines st1) (scan_lines sf2 n2 lines st2).
Proof.
  revert n1 n2 st1 st2; induction lines as [|l lines IH]; intros n1 n2 st1 st2 H; simpl.
  - unfold both_ok; eauto 6.
  - destruct (scan_line_same sf1 (S n1) sf2 (S n2) st1 st2 l H)
      as (a & b & -> & -> & Hab). simpl. by apply IH.
Qed.

Lemma scan_files_same files st1 st2 :
  same_counts st1 st2 -> both_ok (scan_files files st1) (scan_files files st2).
Proof.
  revert st1 st2; induction files as [|[sf lines] files IH]; intros st1 st2 H; simpl.
  - unfold both_ok; eauto 6.
  - destruct (scan_lines_same sf 0 sf 0 lines st1 st2 H) as (a & b & -> & -> & Hab).
    simpl. by apply IH.
Qed.

Lemma scan_lines_app sf n l1 l2 st :
  scan_lines sf n (l1 ++ l2) st
  = let* st' := scan_lines sf n l1 st in scan_lines sf (n + length l1) l2 st'.
Proof.
  revert n st; induction l1 as [|l l1 IH]; intros n st; simpl.
  - by rewrite Nat.add_0_r.
  - destruct (scan_line sf (S n) st l); simpl; [|done].
    rewrite IH. by replace (S n + length l1) with (n + S (length l1)) by lia.
Qed.

Lemma scan_files_app f1 f2 st :
  scan_files (f1 ++ f2) st = let* st' := scan_files f1 st in scan_files f2 st'.
Proof.
  revert st; induction f1 as [|[sf lines] f1 IH]; intros st; simpl; [done|].
  destruct (scan_lines sf 0 lines st); simpl; [apply IH|done].
Qed.

Lemma set_prepend_id st : set_prepend st (prepend st) = st.
Proof. by destruct st. Qed.

Lemma set_prepend_twice st p q : set_prepend (set_prepend st p) q = set_prepend st q.
Proof. done. Qed.

(** A line whose last token is a broken identifier is kept pending, and
    nothing is recorded for it. *)
Lemma scan_line_pending sf n st line tok :
  prepend st = None ->
  is_comment_line line = false ->
  contains line VUID_marker = true ->
  last_item (split_ws line) = Some tok ->
  is_broken_vuid tok = true ->
  scan_line sf n st line = Ok (set_prepend st (Some line)).
Proof.
  intros Hp Hc Hm Hl Hb. unfold scan_line, find_vuids.
  by rewrite Hc, Hp, Hm, Hl, Hb.
Qed.

End Reflow.

Lemma marker_token_black mid :
  Forall (fun c => is_space c = false) mid ->
  Forall (fun c => is_space c = false) (VUID_marker ++ mid ++ broken_tail).
Proof.
  intros H. apply Forall_app; split; [by repeat constructor|].
  apply Forall_app; split; [done|by repeat constructor].
Qed.

(** C1 (amended). Let line K of a file be [body] followed by a token that
    starts with the marker and ends with a dash and a closing quote, then
    the newline, the token being delimited by whitespace; let line K+1 be
    whitespace, a quote and a remainder that does not start with a quote.
    If line K is not skipped as a comment and no fragment is pending when
    it is reached, [parse] returns on the file and on the file with the
    two lines written as one, with the same identifiers, each found the
    same number of times, and the same pending fragment. *)
Theorem reflow_rejoins_broken_identifier
  (files1 files2 : list (pystr * list pystr)) (sf : pystr)
  (pre post : list pystr) (body mid ws rest : pystr) :
  (body = [] \/ exists b w, body = b ++ [w] /\ is_space w = true) ->
  Forall (fun c => is_space c = false) mid ->
  Forall (fun c => is_space c = true) ws ->
  head rest <> Some dquote ->
  is_comment_line (body ++ (VUID_marker ++ mid ++ broken_tail) ++ [nl]) = false ->
  pending_before files1 sf pre = None ->
  exists st1 st2,
    ValidationSource.parse
      (files1 ++ (sf, pre ++ [body ++ (VUID_marker ++ mid ++ broken_tail) ++ [nl];
                              ws ++ dquote :: rest] ++ post) :: files2) = Ok st1
    /\ ValidationSource.parse
         (files1 ++ (sf, pre ++ [body ++ VUID_marker ++ mid ++ str "-" ++ rest] ++ post)
                 :: files2) = Ok st2
    /\ counts st1 = counts st2
    /\ ValidationSource.duplicate_checks st1 = ValidationSource.duplicate_checks st2
    /\ ValidationSource.prepend st1 = ValidationSource.prepend st2.
Proof.
  intros Hbody Hmid Hws Hrest Hcomment Hpending.
  unfold ValidationSource.parse. rewrite !scan_files_app.
  unfold pending_before in Hpending.
  destruct (scan_files_total files1 ValidationSource.initial) as [s1 E1].
  rewrite E1 in *. cbn [bind ValidationSource.scan_files] in *.
  rewrite !scan_lines_app.
  destruct (scan_lines_total sf 0 pre s1) as [s E]. rewrite E in *.
  cbn [bind app ValidationSource.scan_lines] in *.
  set (lineK := body ++ (VUID_marker ++ mid ++ broken_tail) ++ [nl]) in *.
  set (joined := body ++ VUID_marker ++ mid ++ str "-" ++ rest).
  assert (ValidationSource.scan_line sf (S (0 + length pre)) s lineK
          = Ok (ValidationSource.set_prepend s (Some lineK))) as EK.
  { apply scan_line_pending with (tok := VUID_marker ++ mid ++ broken_tail);
      [done|done| | |apply broken_token].
    - unfold lineK. rewrite <- !app_assoc. apply contains_middle.
    - apply last_token; [done|by apply marker_token_black|done]. }
  rewrite EK. cbn [bind].
  assert (ValidationSource.scan_line sf (S (S (0 + length pre)))
            (ValidationSource.set_prepend s (Some lineK)) (ws ++ dquote :: rest)
          = ValidationSource.find_vuids sf (S (S (0 + length pre))) s joined) as EK1.
  { unfold ValidationSource.scan_line. rewrite quote_line_not_comment by done.
    cbn [ValidationSource.prepend ValidationSource.set_prepend].
    unfold lineK. rewrite join_broken_eq by done.
    f_equal. rewrite <- Hpending at 1. by destruct s. }
  rewrite EK1.
  assert (ValidationSource.scan_line sf (S (0 + length pre)) s joined
          = ValidationSource.find_vuids sf (S (0 + length pre)) s joined) as EJ.
  { unfold ValidationSource.scan_line.
    replace (is_comment_line joined) with (is_comment_line lineK)
      by apply (comment_before_quote body).
    by rewrite Hcomment, Hpending. }
  rewrite EJ.
  destruct (find_vuids_same sf (S (S (0 + length pre))) sf (S (0 + length pre))
              s s joined (same_counts_refl s)) as (a & b & -> & -> & Hab).
  cbn [bind].
  destruct (scan_lines_same sf (S (S (0 + length pre))) sf (S (0 + length pre))
              post a b Hab) as (a' & b' & -> & -> & Hab').
  cbn [bind].
  destruct (scan_files_same files2 a' b' Hab') as (a2 & b2 & -> & -> & H2).
  exists a2, b2. by destruct H2 as (? & ? & ?).
Qed.

Lemma reflow_rejoins_broken_identifier_witness :
  exists st1 st2,
    ValidationSource.parse
      ([] ++ (str "core_validation.cpp",
              [str "bool skip = false;" ++ [nl]]
              ++ [str "    skip |= log_msg(report_data, "
                    ++ (VUID_marker ++ str "vkCmdDraw-commandBuffer" ++ broken_tail)
                    ++ [nl];
                  str "                    " ++ dquote
                    :: (str "recording" ++ [dquote] ++ str ", msg);" ++ [nl])]
              ++ [str "return skip;" ++ [nl]]) :: []) = Ok st1
    /\ ValidationSource.parse
         ([] ++ (str "core_validation.cpp",
                 [str "bool skip = false;" ++ [nl]]
                 ++ [str "    skip |= log_msg(report_data, "
                       ++ VUID_marker ++ str "vkCmdDraw-commandBuffer" ++ str "-"
                       ++ (str "recording" ++ [dquote] ++ str ", msg);" ++ [nl])]
                 ++ [str "return skip;" ++ [nl]]) :: []) = Ok st2
    /\ counts st1 = counts st2
    /\ ValidationSource.duplicate_checks st1 = ValidationSource.duplicate_checks st2
    /\ ValidationSource.prepend st1 = ValidationSource.prepend st2.
Proof.
  apply (reflow_rejoins_broken_identifier [] [] (str "core_validation.cpp")
           [str "bool skip = false;" ++ [nl]] [str "return skip;" ++ [nl]]
           (str "    skip |= log_msg(report_data, ")
           (str "vkCmdDraw-commandBuffer")
           (str "                    ")
           (str "recording" ++ [dquote] ++ str ", msg);" ++ [nl])).
  - right. exists (str "    skip |= log_msg(report_data,"), " "%char.
    split; reflexivity.
  - repeat constructor.
  - repeat constructor.
  - discriminate.
  - vm_compute. reflexivity.
  - vm_compute. reflexivity.
Defined.

(** C1 (as stated) fails when line K is a comment line: the line that
    follows is then read on its own, while the unbroken line is skipped
    whole; the broken identifier is found in neither. *)
Lemma reflow_comment_line_counterexample :
  let lineK := str "// see " ++ (VUID_marker ++ str "a" ++ broken_tail) ++ [nl] in
  let rest := str "b-1" ++ [dquote] ++ str ", " ++ VUID_marker ++ str "c-2"
              ++ [dquote] ++ str ");" ++ [nl] in
  let lineK1 := str "   " ++ dquote :: rest in
  let joined := str "// see " ++ VUID_marker ++ str "a" ++ str "-" ++ rest in
  exists st1 st2,
    ValidationSource.parse [(str "a.cpp", [lineK; lineK1])] = Ok st1
    /\ ValidationSource.parse [(str "a.cpp", [joined])] = Ok st2
    /\ counts st1 !! str "VUID-c-2" = Some 1
    /\ counts st2 !! str "VUID-c-2" = None
    /\ counts st1 <> counts st2
    /\ counts st1 !! str "VUID-a-b-1" = None.
Proof.
  cbv zeta. eexists _, _.
  split; [vm_compute; reflexivity|]. split; [vm_compute; reflexivity|].
  split; [vm_compute; reflexivity|]. split; [vm_compute; reflexivity|].
  split; [|vm_compute; reflexivity].
  intros H. apply (f_equal (fun m => m !! str "VUID-c-2")) in H.
  vm_compute in H. discriminate.
Qed.

(* ===================================================================== *)
(** ** The exit status *)
(* ===================================================================== *)

Section Reconcile.

Import Main ValidationJSON.

Definition sym_diff `{Countable A} (X Y : gset A) : gset A := (X ∖ Y) ∪ (Y ∖ X).

(** None of the four failure conditions of [main] fires: [src_keys] are the
    keys of the occurrence map, [test_names] the keys of the test map. *)
Definition no_failure (val_db : ValidationDatabase.state) (vuids : gset scalar)
  (src_keys test_names : gset pystr) : Prop :=
  ValidationDatabase.db_invalid_implemented val_db = ∅
  /\ sym_diff vuids (set_map SStr (dom (ValidationDatabase.db_dict val_db))) = ∅
  /\ sym_diff (ValidationDatabase.db_implemented_vuids val_db) src_keys = ∅
  /\ forall vuid tests t,
       ValidationDatabase.db_vuid_to_tests val_db !! vuid = Some tests ->
       t ∈ tests -> t ∈ test_names.

Lemma sym_diff_empty `{Countable A} (X Y : gset A) : sym_diff X Y = ∅ <-> X = Y.
Proof.
  unfold sym_diff. split.
  - intros E. apply set_eq. intros x.
    assert (x ∉ (X ∖ Y) ∪ (Y ∖ X)) as Hx by (rewrite E; set_solver).
    destruct (decide (x ∈ X)), (decide (x ∈ Y)); set_solver.
  - intros ->. set_solver.
Qed.

Lemma size_zero_iff `{Countable A} (X : gset A) : (size X =? 0) = true <-> X = ∅.
Proof. rewrite Nat.eqb_eq, size_empty_iff. by unfold_leibniz. Qed.

Lemma size_set_map_SStr (X : gset pystr) :
  size (set_map SStr X : gset scalar) = size X.
Proof.
  unfold set_map. rewrite size_list_to_set.
  - by rewrite length_fmap.
  - apply NoDup_fmap_2; [by intros ?? [=]|apply NoDup_elements].
Qed.

Lemma database_matches_json {V} (db_dict : gmap pystr V) (vuids : gset scalar) :
  let db_keys : gset scalar := set_map SStr (dom db_dict) in
  ((size db_dict =? size vuids) && (size (vuids ∖ db_keys) =? 0)
   && (size (db_keys ∖ vuids) =? 0)) = true
  <-> sym_diff vuids db_keys = ∅.
Proof.
  intros db_keys. rewrite !andb_true_iff, !size_zero_iff, Nat.eqb_eq, sym_diff_empty.
  split.
  - intros [[_ H1] H2]. apply set_eq. intros x.
    destruct (decide (x ∈ vuids)), (decide (x ∈ db_keys)); set_solver.
  - intros ->. repeat split; [|set_solver|set_solver].
    unfold db_keys. by rewrite size_set_map_SStr, size_dom.
Qed.

Lemma source_matches_database (implemented imp_vuids : gset pystr) :
  ((size (implemented ∖ imp_vuids) =? 0) && (size (imp_vuids ∖ implemented) =? 0)) = true
  <-> sym_diff implemented imp_vuids = ∅.
Proof.
  rewrite andb_true_iff, !size_zero_iff, sym_diff_empty. split.
  - intros [H1 H2]. apply set_eq. intros x.
    destruct (decide (x ∈ implemented)), (decide (x ∈ imp_vuids)); set_solver.
  - intros ->. split; set_solver.
Qed.

Lemma elem_of_claimed_tests (m : gmap pystr (list pystr)) vuid t :
  (vuid, t) ∈ claimed_tests m <-> exists tests, m !! vuid = Some tests /\ t ∈ tests.
Proof.
  unfold claimed_tests. rewrite list_elem_of_In, in_flat_map. split.
  - intros ([v ts] & Hin & Ht). simpl in Ht.
    apply in_map_iff in Ht as (t' & [= <- <-] & Ht').
    exists ts. split.
    + by apply elem_of_map_to_list, list_elem_of_In.
    + by apply list_elem_of_In.
  - intros (ts & Hm & Ht). exists (vuid, ts). split.
    + by apply list_elem_of_In, elem_of_map_to_list.
    + simpl. apply in_map_iff. exists t. split; [done|by apply list_elem_of_In].
Qed.

Lemma no_bad_testname (m tests : gmap pystr (list pystr)) :
  (length (map snd (filter (fun vt => tests !! vt.2 = None) (claimed_tests m))) =? 0) = true
  <-> forall vuid ts t, m !! vuid = Some ts -> t ∈ ts -> t ∈ dom tests.
Proof.
  rewrite Nat.eqb_eq, length_map, length_zero_iff_nil. split.
  - intros E vuid ts t Hm Ht. apply elem_of_dom.
    destruct (tests !! t) eqn:Et; [done|].
    assert ((vuid, t) ∈ filter (fun vt => tests !! vt.2 = None) (claimed_tests m)) as Hin.
    { apply list_elem_of_filter. split; [done|]. apply elem_of_claimed_tests. eauto. }
    rewrite E in Hin. by apply elem_of_nil in Hin.
  - intros H. apply elem_of_nil_inv. intros [vuid t] Hin.
    apply list_elem_of_filter in Hin as [Hnone Hin]. simpl in Hnone.
    apply elem_of_claimed_tests in Hin as (ts & Hm & Ht).
    specialize (H _ _ _ Hm Ht). apply elem_of_dom in H as [? H]. congruence.
Qed.

End Reconcile.

Section ExitStatus.

Import Main ValidationJSON.

Lemma no_invalid_flag (invalid : gset pystr) : (0 <? size invalid) = false <-> invalid = ∅.
Proof.
  rewrite Nat.ltb_ge. rewrite <- (size_zero_iff invalid), Nat.eqb_eq. lia.
Qed.

(** When the reconciliation returns, its result is 0 or 1, and it is 0
    exactly when no failure condition fired. *)
Lemma reconcile_code verbose val_db vuids val_source test_parser rep :
  reconcile verbose val_db vuids val_source test_parser = Ok rep ->
  (result_code rep = 0%Z \/ result_code rep = 1%Z)
  /\ (result_code rep = 0%Z <->
      no_failure val_db vuids
        (dom (ValidationSource.vuid_count_dict val_source))
        (dom (TestParser.test_to_errors test_parser))).
Proof.
  unfold reconcile, no_failure. cbv zeta.
  pose proof (database_matches_json (ValidationDatabase.db_dict val_db) vuids) as H2.
  cbv zeta in H2.
  pose proof (source_matches_database
                (ValidationDatabase.db_implemented_vuids val_db)
                (dom (ValidationSource.vuid_count_dict val_source))) as H3.
  pose proof (no_bad_testname (ValidationDatabase.db_vuid_to_tests val_db)
                (TestParser.test_to_errors test_parser)) as H4.
  pose proof (no_invalid_flag (ValidationDatabase.db_invalid_implemented val_db)) as H1.
  match type of H2 with (?b = true <-> _) => set (b2 := b) in * end.
  match type of H3 with (?b = true <-> _) => set (b3 := b) in * end.
  match type of H4 with (?b = true <-> _) => set (b4 := b) in * end.
  destruct (0 <? size (ValidationDatabase.db_invalid_implemented val_db)) eqn:E1.
  - destruct (filter _ (elements _)); [|intros [=]]. cbn [bind].
    destruct (verbose && _); [intros [=]|]. cbn [bind].
    intros [= <-]. cbn [result_code].
    split; [destruct b4, b3, b2; auto|]. split.
    + destruct b4, b3, b2; discriminate.
    + intros (HA & _). apply H1 in HA. discriminate.
  - cbn [bind]. destruct (verbose && _); [intros [=]|]. cbn [bind].
    intros [= <-]. cbn [result_code].
    split; [destruct b4, b3, b2; auto|]. split.
    + intros Hc. destruct b4, b3, b2; try discriminate Hc.
      split; [by apply H1|]. split; [by apply H2|]. split; [by apply H3|by apply H4].
    + intros (_ & HB & HC & HD).
      apply H2 in HB. apply H3 in HC. apply H4 in HD. by rewrite HB, HC, HD.
Qed.

(** Whether the reconciliation returns does not depend on what was found
    in the sources and in the tests. *)
Lemma reconcile_returns verbose val_db vuids val_source test_parser rep :
  reconcile verbose val_db vuids val_source test_parser = Ok rep ->
  forall val_source' test_parser',
    exists rep', reconcile verbose val_db vuids val_source' test_parser' = Ok rep'.
Proof.
  unfold reconcile. cbv zeta. intros H val_source' test_parser'.
  destruct (0 <? size (ValidationDatabase.db_invalid_implemented val_db)).
  - destruct (filter _ (elements _)); [|discriminate]. cbn [bind] in *.
    destruct (verbose && _); [discriminate|]. cbn [bind]. eauto.
  - cbn [bind] in *. destruct (verbose && _); [discriminate|]. cbn [bind]. eauto.
Qed.

End ExitStatus.

(** C3. When a run returns from [main], the exit status is 0 or 1; it is 0
    exactly when the set of invalid implemented flags is empty, the
    identifiers of validusage.json and the keys of the database have an
    empty symmetric difference, the identifiers the database marks as
    implemented and the keys of the occurrence map have an empty symmetric
    difference, and every test name the database refers to is a key of the
    test map.  The status is the same for any other occurrence map and
    test map with the same keys: occurrence counts and the identifiers a
    test refers to do not change it. *)
Theorem exit_status_characterization
  (verbose : bool) (db_lines : list pystr) (json_file : option ValidationJSON.json)
  (source_files : list (pystr * list pystr)) (test_lines : list pystr)
  (rep : Main.report) :
  Main.main verbose db_lines json_file source_files test_lines = Ok rep ->
  exists val_db vuids val_source test_parser,
    ValidationDatabase.read db_lines = Ok val_db
    /\ ValidationJSON.read json_file = Ok vuids
    /\ ValidationSource.parse source_files = Ok val_source
    /\ TestParser.parse TestParser.default_groups [test_lines] = Ok test_parser
    /\ (Main.exit_status (Ok rep) = 0%Z \/ Main.exit_status (Ok rep) = 1%Z)
    /\ (Main.exit_status (Ok rep) = 0%Z <->
        ValidationDatabase.db_invalid_implemented val_db = ∅
        /\ sym_diff vuids
             (set_map ValidationJSON.SStr (dom (ValidationDatabase.db_dict val_db))) = ∅
        /\ sym_diff (ValidationDatabase.db_implemented_vuids val_db)
             (dom (ValidationSource.vuid_count_dict val_source)) = ∅
        /\ forall vuid tests t,
             ValidationDatabase.db_vuid_to_tests val_db !! vuid = Some tests ->
             t ∈ tests -> t ∈ dom (TestParser.test_to_errors test_parser))
    /\ forall val_source' test_parser',
         dom (ValidationSource.vuid_count_dict val_source')
         = dom (ValidationSource.vuid_count_dict val_source) ->
         dom (TestParser.test_to_errors test_parser')
         = dom (TestParser.test_to_errors test_parser) ->
         exists rep',
           Main.reconcile verbose val_db vuids val_source' test_parser' = Ok rep'
           /\ Main.exit_status (Ok rep') = Main.exit_status (Ok rep).
Proof.
  unfold Main.main. intros H.
  destruct (ValidationDatabase.read db_lines) as [val_db|]; [|discriminate].
  destruct (ValidationJSON.read json_file) as [vuids|]; [|discriminate].
  destruct (ValidationSource.parse source_files) as [val_source|]; [|discriminate].
  destruct (TestParser.parse TestParser.default_groups [test_lines])
    as [test_parser|]; [|discriminate].
  cbn [bind] in H. exists val_db, vuids, val_source, test_parser.
  do 4 (split; [reflexivity|]).
  destruct (reconcile_code _ _ _ _ _ _ H) as [H01 Hiff].
  cbn [Main.exit_status]. split; [exact H01|]. split; [exact Hiff|].
  intros val_source' test_parser' Hs Ht.
  destruct (reconcile_returns _ _ _ _ _ _ H val_source' test_parser') as [rep' H'].
  exists rep'. split; [exact H'|].
  destruct (reconcile_code _ _ _ _ _ _ H') as [H01' Hiff'].
  rewrite Hs, Ht in Hiff'. unfold no_failure in *.
  destruct H01 as [E|E], H01' as [E'|E']; try congruence.
  - pose proof (proj1 Hiff E) as HP. apply Hiff' in HP. congruence.
  - pose proof (proj1 Hiff' E') as HP. apply Hiff in HP. congruence.
Qed.

(* ===================================================================== *)
(** ** The pending fragment at the end of a file *)
(* ===================================================================== *)

(** A token of a line is a piece of the line. *)
Lemma token_in_line (cur s tok : pystr) :
  tok ∈ split_ws_aux cur s -> exists a b, rev cur ++ s = a ++ tok ++ b.
Proof.
  revert cur; induction s as [|c s IH]; intros cur; simpl.
  - destruct cur as [|d cur]; [by intros ?%elem_of_nil|].
    intros ->%list_elem_of_singleton. exists [], []. by rewrite !app_nil_r.
  - destruct (is_space c).
    + destruct cur as [|d cur].
      * intros (a & b & E)%IH. simpl in E. exists (c :: a), b. simpl. by rewrite E.
      * intros [->|(a & b & E)%IH]%elem_of_cons.
        -- exists [], (c :: s). done.
        -- simpl in E. exists (rev (d :: cur) ++ c :: a), b.
           rewrite E, <- !app_assoc. done.
    + intros (a & b & E)%IH. exists a, b. rewrite <- E. simpl.
      by rewrite <- app_assoc.
Qed.

Lemma broken_tail_has_marker (line tok : pystr) :
  last_item (split_ws line) = Some tok -> is_broken_vuid tok = true ->
  contains line VUID_marker = true.
Proof.
  intros Hl [Hs _]%andb_true_iff.
  apply last_Some_elem_of, token_in_line in Hl as (a & b & E). simpl in E.
  apply startswith_iff in Hs as [r ->]. apply contains_iff.
  exists a, (r ++ b). rewrite E, <- !app_assoc. done.
Qed.

(** C2 (amended). The pending fragment is empty when the scan of the first
    file starts.  When the last line of the last file scanned is not a
    comment line, ends in a broken identifier tail, and no fragment is
    pending when it is reached, the scan returns with the occurrence map it
    returns without that line: no identifier is recorded for it, and the
    fragment left pending is dropped with the scanner state. *)
Theorem dangling_prefix_dropped
  (files : list (pystr * list pystr)) (sf : pystr) (lines : list pystr)
  (last_line tok : pystr) :
  is_comment_line last_line = false ->
  last_item (split_ws last_line) = Some tok ->
  is_broken_vuid tok = true ->
  pending_before files sf lines = None ->
  ValidationSource.prepend ValidationSource.initial = None
  /\ exists st st',
       ValidationSource.parse (files ++ [(sf, lines)]) = Ok st
       /\ ValidationSource.parse (files ++ [(sf, lines ++ [last_line])]) = Ok st'
       /\ ValidationSource.vuid_count_dict st' = ValidationSource.vuid_count_dict st
       /\ ValidationSource.duplicate_checks st' = ValidationSource.duplicate_checks st
       /\ ValidationSource.prepend st' = Some last_line.
Proof.
  intros Hc Hl Hb Hp. split; [reflexivity|].
  unfold ValidationSource.parse, pending_before in *. rewrite !scan_files_app.
  destruct (scan_files_total files ValidationSource.initial) as [s1 E1].
  rewrite E1 in *. cbn [bind ValidationSource.scan_files] in *.
  rewrite scan_lines_app.
  destruct (scan_lines_total sf 0 lines s1) as [s E]. rewrite E in *.
  cbn [bind ValidationSource.scan_lines].
  rewrite (scan_line_pending sf _ s last_line tok)
    by eauto using broken_tail_has_marker.
  cbn [bind]. eauto 10.
Qed.

Lemma dangling_prefix_dropped_witness :
  ValidationSource.prepend ValidationSource.initial = None
  /\ exists st st',
       ValidationSource.parse
         ([] ++ [(str "a.cpp", [str "bool skip = false;" ++ [nl]])]) = Ok st
       /\ ValidationSource.parse
            ([] ++ [(str "a.cpp",
                     [str "bool skip = false;" ++ [nl]]
                     ++ [str "skip |= log_msg(x, " ++ VUID_marker ++ str "a"
                           ++ broken_tail ++ [nl]])]) = Ok st'
       /\ ValidationSource.vuid_count_dict st' = ValidationSource.vuid_count_dict st
       /\ ValidationSource.duplicate_checks st' = ValidationSource.duplicate_checks st
       /\ ValidationSource.prepend st'
          = Some (str "skip |= log_msg(x, " ++ VUID_marker ++ str "a"
                    ++ broken_tail ++ [nl]).
Proof.
  apply (dangling_prefix_dropped [] (str "a.cpp") [str "bool skip = false;" ++ [nl]]
           (str "skip |= log_msg(x, " ++ VUID_marker ++ str "a" ++ broken_tail ++ [nl])
           (VUID_marker ++ str "a" ++ broken_tail)).
  - vm_compute. reflexivity.
  - vm_compute. reflexivity.
  - vm_compute. reflexivity.
  - vm_compute. reflexivity.
Defined.

(** C2 (as stated) fails: the fragment left pending by the last line of a
    file is joined to the first line of the next file, where it makes an
    identifier of a line that has none. *)
Lemma pending_prefix_crosses_files_counterexample :
  let broken := str "skip |= log_msg(x, " ++ VUID_marker ++ str "a" ++ broken_tail
                ++ [nl] in
  let f1 := (str "a.cpp", [broken]) in
  let f2 := (str "b.cpp", [str "int b = 1;" ++ [nl]]) in
  exists st1 st2 st12,
    ValidationSource.parse [f1] = Ok st1
    /\ ValidationSource.prepend st1 = Some broken
    /\ ValidationSource.parse [f2] = Ok st2
    /\ ValidationSource.vuid_count_dict st2 = ∅
    /\ ValidationSource.parse [f1; f2] = Ok st12
    /\ ValidationSource.vuid_count_dict st12 !! str "VUID-a-int"
       = Some (ValidationSource.mk_entry 1 [str "b.cpp,1"]).
Proof.
  cbv zeta. eexists _, _, _.
  split; [vm_compute; reflexivity|]. split; [vm_compute; reflexivity|].
  split; [vm_compute; reflexivity|]. split; [vm_compute; reflexivity|].
  split; [vm_compute; reflexivity|]. vm_compute. reflexivity.
Qed.

(* ===================================================================== *)
(** ** validusage.json *)
(* ===================================================================== *)

(** The design's reading of the walk, to compare [ExtractVUIDs] with: the
    value of every mapping entry whose key is the vuid key, at any depth,
    through mappings and through arrays, arrays within arrays included. *)
Fixpoint all_vuid_values (d : ValidationJSON.json) : list ValidationJSON.json :=
  match d with
  | ValidationJSON.JObj items =>
      flat_map
        (fun kv =>
           match kv with
           | (k, v) =>
               (if pystr_eqb k ValidationJSON.vuid_key then [v] else [])
               ++ all_vuid_values v
           end)
        items
  | ValidationJSON.JArr elems => flat_map all_vuid_values elems
  | _ => []
  end.

(** C4. A document with one vuid entry inside an array that is itself an
    element of an array: the entry is there, [ExtractVUIDs] yields nothing
    and [read] returns the empty set.  The same holds for a document that
    is an array at its top. *)
Theorem nested_array_vuid_missed :
  let entry := ValidationJSON.JObj
                 [(ValidationJSON.vuid_key, ValidationJSON.JStr (str "VUID-vkFoo-a-00001"))] in
  let doc := ValidationJSON.JObj
               [(str "validation", ValidationJSON.JArr [ValidationJSON.JArr [entry]])] in
  let top := ValidationJSON.JArr [entry] in
  all_vuid_values doc = [ValidationJSON.JStr (str "VUID-vkFoo-a-00001")]
  /\ ValidationJSON.ExtractVUIDs doc = []
  /\ ValidationJSON.read (Some doc) = Ok ∅
  /\ all_vuid_values top = [ValidationJSON.JStr (str "VUID-vkFoo-a-00001")]
  /\ ValidationJSON.ExtractVUIDs top = []
  /\ ValidationJSON.read (Some top) = Ok ∅.
Proof. cbv zeta. repeat split; vm_compute; reflexivity. Qed.

(* ===================================================================== *)
(** ** The database *)
(* ===================================================================== *)

Definition db_line_of (fields : list string) : pystr :=
  match fields with
  | [] => []
  | f :: rest =>
      fold_left (fun acc g => acc ++ ValidationDatabase.delimiter ++ str g) rest (str f)
  end ++ [nl].

(** C5. A line of nine fields is reported and then stored like a line of
    eight: its record is inserted and its identifier joins the implemented
    set.  A line of fewer than eight fields is reported and then stops the
    load with an [IndexError], the lines after it unread. *)
Theorem malformed_line_not_skipped :
  let nine := db_line_of ["E1"; "Y"; "None"; "vkFoo"; "VUID-vkFoo-a-00001"; "core";
                          "msg"; "note"; "extra"]%string in
  let seven := db_line_of ["E2"; "Y"; "None"; "vkBar"; "VUID-vkBar-b-00002"; "core";
                           "msg"]%string in
  let good := db_line_of ["E3"; "N"; "None"; "vkBaz"; "VUID-vkBaz-c-00003"; "core";
                          "msg"; "note"]%string in
  (exists st,
     ValidationDatabase.read [nine] = Ok st
     /\ ValidationDatabase.stdout st = [ValidationDatabase.bad_line_message (strip nine)]
     /\ ValidationDatabase.db_dict st !! str "VUID-vkFoo-a-00001"
        = Some (ValidationDatabase.mk_entry (str "E1") (str "Y") (str "None")
                  (str "vkFoo") (str "core") (str "msg") (str "note"))
     /\ str "VUID-vkFoo-a-00001" ∈ ValidationDatabase.db_implemented_vuids st)
  /\ ValidationDatabase.read [seven; good] = Raise IndexError
  /\ (exists st,
        ValidationDatabase.read [good] = Ok st
        /\ ValidationDatabase.stdout st = []
        /\ is_Some (ValidationDatabase.db_dict st !! str "VUID-vkBaz-c-00003")).
Proof.
  cbv zeta. split; [|split].
  - eexists. split; [vm_compute; reflexivity|].
    split; [vm_compute; reflexivity|]. split; [vm_compute; reflexivity|].
    vm_compute. reflexivity.
  - vm_compute. reflexivity.
  - eexists. split; [vm_compute; reflexivity|].
    split; [vm_compute; reflexivity|]. vm_compute. eauto.
Qed.

(* ===================================================================== *)
(** ** The test parser *)
(* ===================================================================== *)

Section TestFacts.

Import TestParser.

(** The identifiers the test parser takes from a line. *)
Definition test_vuid_list (line : pystr) : list pystr :=
  map (strip_chars strip_set)
      (filter (fun tok => Is_true (contains tok VUID_marker)) (split_ws line)).

Lemma split_ws_aux_first (cur s : pystr) :
  cur <> [] -> exists tok x, tok ∈ split_ws_aux cur s /\ tok = rev cur ++ x.
Proof.
  revert cur; induction s as [|c s IH]; intros cur Hcur; simpl.
  - destruct cur; [done|]. eexists _, []. rewrite app_nil_r. split; [left|done].
  - destruct (is_space c).
    + destruct cur; [done|]. eexists _, []. rewrite app_nil_r. split; [left|done].
    + destruct (IH (c :: cur)) as (tok & x & Hin & ->); [done|].
      exists (rev (c :: cur) ++ x), (c :: x). split; [done|].
      simpl. by rewrite <- app_assoc.
Qed.

Lemma split_ws_aux_push (cur p s : pystr) :
  Forall (fun c => is_space c = false) p ->
  split_ws_aux cur (p ++ s) = split_ws_aux (rev p ++ cur) s.
Proof.
  intros H; revert cur; induction H as [|c p Hc _ IH]; intros cur; simpl; [done|].
  rewrite Hc, IH. by rewrite <- app_assoc.
Qed.

(** A piece of a line that has no whitespace lies within one token. *)
Lemma piece_in_token (p : pystr) (cur a b : pystr) :
  Forall (fun c => is_space c = false) p -> p <> [] ->
  exists tok, tok ∈ split_ws_aux cur (a ++ p ++ b) /\ contains tok p = true.
Proof.
  intros Hp Hne. revert cur; induction a as [|c a IH]; intros cur; simpl.
  - rewrite split_ws_aux_push by done.
    destruct (split_ws_aux_first (rev p ++ cur) b) as (tok & x & Hin & ->).
    { destruct p using rev_ind; [done|]. rewrite rev_app_distr. done. }
    eexists. split; [exact Hin|].
    rewrite rev_app_distr, rev_involutive, <- app_assoc. apply contains_middle.
  - destruct (is_space c).
    + destruct cur.
      * apply IH.
      * destruct (IH []) as (tok & Hin & Hc). exists tok. split; [by right|done].
    + apply IH.
Qed.

Lemma marker_in_token (line : pystr) :
  contains line VUID_marker = true ->
  exists tok, tok ∈ split_ws line /\ contains tok VUID_marker = true.
Proof.
  intros (a & b & ->)%contains_iff. apply piece_in_token; [|done].
  by repeat constructor.
Qed.

Lemma no_marker_no_token (line : pystr) :
  contains line VUID_marker = false ->
  filter (fun tok => Is_true (contains tok VUID_marker)) (split_ws line) = [].
Proof.
  intros H. apply elem_of_nil_inv. intros tok [Ht Hin]%list_elem_of_filter.
  apply token_in_line in Hin as (a & b & E). simpl in E.
  apply Is_true_true, contains_iff in Ht as (a' & b' & ->).
  assert (contains line VUID_marker = true) as H'; [|congruence].
  apply contains_iff. exists (a ++ a'), (b' ++ b). rewrite E, <- !app_assoc. done.
Qed.

(** Appending to the list of a registered test. *)
Lemma append_vuids_registered (toks : list pystr) (st : state) (l : list pystr) :
  test_to_errors st !! testname st = Some l ->
  exists st',
    append_vuids st toks = Ok st'
    /\ testname st' = testname st
    /\ grab_next_line st' = grab_next_line st
    /\ prepend st' = prepend st
    /\ test_to_errors st'
       = <[testname st :=
             l ++ map (strip_chars strip_set)
                      (filter (fun tok => Is_true (contains tok VUID_marker)) toks)]>
           (test_to_errors st).
Proof.
  revert st l; induction toks as [|tok toks IH]; intros st l Hl; simpl.
  - exists st. repeat split. rewrite app_nil_r. by rewrite insert_id.
  - destruct (contains tok VUID_marker) eqn:Hc.
    + rewrite filter_cons_True by by rewrite Hc.
      unfold append_vuid. rewrite Hl. cbn [bind].
      match goal with
      | |- context [append_vuids ?s toks] =>
          destruct (IH s (l ++ [strip_chars strip_set tok]))
            as (st' & -> & Hn & Hg & Hp & Hm);
            [cbn [test_to_errors testname]; apply lookup_insert_eq|]
      end.
      exists st'. cbn [test_to_errors testname grab_next_line prepend] in *.
      repeat split; [done..|]. rewrite Hm, insert_insert_eq.
      cbn [map]. rewrite <- app_assoc. reflexivity.
    + rewrite filter_cons_False by (rewrite Hc; intros []). by apply IH.
Qed.

Lemma collect_registered (line : pystr) (st : state) (l : list pystr) :
  test_to_errors st !! testname st = Some l ->
  exists st',
    collect st line = Ok st'
    /\ testname st' = testname st
    /\ grab_next_line st' = grab_next_line st
    /\ prepend st' = prepend st
    /\ test_to_errors st' = <[testname st := l ++ test_vuid_list line]> (test_to_errors st).
Proof.
  intros Hl. unfold collect, test_vuid_list.
  destruct (contains line VUID_marker) eqn:Hc.
  - by apply append_vuids_registered.
  - exists st. repeat split. rewrite no_marker_no_token by done.
    simpl. rewrite app_nil_r. by rewrite insert_id.
Qed.

(** Identifiers are appended to the entry of the current test name: with
    no such entry the parser stops with a [KeyError]. *)
Lemma collect_unregistered (line : pystr) (st : state) :
  test_to_errors st !! testname st = None ->
  contains line VUID_marker = true ->
  collect st line = Raise (KeyError (testname st)).
Proof.
  intros Hn Hc. unfold collect. rewrite Hc.
  destruct (marker_in_token line Hc) as (tok & Hin & Ht).
  induction (split_ws line) as [|t toks IH]; [by apply elem_of_nil in Hin|].
  simpl. destruct (contains t VUID_marker) eqn:E.
  - unfold append_vuid. by rewrite Hn.
  - apply IH. apply elem_of_cons in Hin as [->|Hin]; [congruence|done].
Qed.

End TestFacts.

(** A line that carries an identifier and is read while the current test
    name has no entry stops the parser. *)
Lemma parse_line_unregistered (triggers : list pystr) (st : TestParser.state)
  (line : pystr) :
  TestParser.prepend st = None ->
  TestParser.grab_next_line st = false ->
  TestParser.test_to_errors st !! TestParser.testname st = None ->
  is_comment_line line = false ->
  contains line VUID_marker = true ->
  (forall tok, last_item (split_ws line) = Some tok -> is_broken_vuid tok = false) ->
  existsb (contains line) triggers = false ->
  TestParser.parse_line triggers st line = Raise (KeyError (TestParser.testname st)).
Proof.
  intros Hp Hg Hn Hc Hm Hb Ht.
  unfold TestParser.parse_line, TestParser.check_broken, TestParser.declare,
    TestParser.after_trigger.
  rewrite Hc, Hp, Hm. destruct (marker_has_token line Hm) as [tok Htok].
  rewrite Htok, (Hb tok Htok), Ht, Hg. by apply collect_unregistered.
Qed.

(** C6. A test file whose first line carries an identifier, before any
    test declaration: the parser stops with [KeyError] on the empty test
    name, whereas the file without that line is parsed. *)
Theorem identifier_before_first_test_raises :
  let preamble := str "static const char *kVuid = " ++ VUID_marker
                  ++ str "vkFoo-a-00001" ++ [dquote] ++ str ";" ++ [nl] in
  let test := [ str "TEST_F(VkLayerTest, Foo) {" ++ [nl];
                str "    m_errorMonitor->SetDesiredFailureMsg(kErrorBit, "
                  ++ VUID_marker ++ str "vkFoo-a-00001" ++ [dquote] ++ str ");" ++ [nl];
                str "}" ++ [nl] ] in
  TestParser.parse TestParser.default_groups [preamble :: test] = Raise (KeyError [])
  /\ exists st,
       TestParser.parse TestParser.default_groups [test] = Ok st
       /\ TestParser.test_to_errors st = {[ str "Foo" := [str "VUID-vkFoo-a-00001"] ]}.
Proof.
  cbv zeta. split; [vm_compute; reflexivity|].
  eexists. split; [vm_compute; reflexivity|]. vm_compute. reflexivity.
Qed.

Lemma split_on_aux_nonnil (sep : pystr) (skip : nat) (cur s : pystr) :
  split_on_aux sep skip cur s <> [].
Proof.
  revert skip cur; induction s as [|c s IH]; intros skip cur;
    cbn [split_on_aux]; [done|].
  destruct skip; [|apply IH]. destruct (startswith (c :: s) sep); [done|apply IH].
Qed.

(** C7 (amended). On a line that is not a comment line, is read with no
    fragment pending, is not left pending itself and contains a trigger,
    the name is the last of the comma-separated fields of the line,
    stripped of whitespace and then of spaces, opening braces and closing
    parentheses at both ends.  If that name is empty no test is registered
    from the line: the test map is unchanged and the flag is set.
    Otherwise the name is registered; when the flag was not set, it becomes
    the current test name and its list holds the identifiers of the line. *)
Theorem test_name_after_last_comma
  (triggers : list pystr) (st : TestParser.state) (line field : pystr) :
  TestParser.prepend st = None ->
  is_comment_line line = false ->
  (forall tok, last_item (split_ws line) = Some tok -> is_broken_vuid tok = false) ->
  existsb (contains line) triggers = true ->
  last_item (split_on (str ",") line) = Some field ->
  match TestParser.clean_name field with
  | [] =>
      TestParser.parse_line triggers st line
      = Ok {| TestParser.test_to_errors := TestParser.test_to_errors st;
              TestParser.grab_next_line := true;
              TestParser.testname := [];
              TestParser.prepend := None |}
  | name =>
      exists st',
        TestParser.parse_line triggers st line = Ok st'
        /\ is_Some (TestParser.test_to_errors st' !! name)
        /\ (TestParser.grab_next_line st = false ->
            TestParser.testname st' = name
            /\ TestParser.grab_next_line st' = false
            /\ TestParser.test_to_errors st'
               = <[name := test_vuid_list line]> (TestParser.test_to_errors st))
  end.
Proof.
  intros Hp Hc Hb Ht Hf.
  assert (TestParser.parse_line triggers st line = TestParser.declare triggers st line) as ->.
  { unfold TestParser.parse_line, TestParser.check_broken. rewrite Hc, Hp.
    destruct (contains line VUID_marker) eqn:Hm; [|done].
    destruct (marker_has_token line Hm) as [tok Htok]. by rewrite Htok, (Hb tok Htok). }
  unfold TestParser.declare. rewrite Ht, Hf.
  destruct (TestParser.clean_name field) as [|c name'] eqn:En.
  - by rewrite Hp.
  - set (name := c :: name') in *. unfold TestParser.after_trigger.
    cbn [TestParser.register TestParser.grab_next_line TestParser.testname
         TestParser.test_to_errors TestParser.prepend].
    destruct (TestParser.grab_next_line st) eqn:Hg.
    + edestruct (collect_registered line) as (st' & E & Hn & Hg' & Hp' & Hm);
        [|rewrite E].
      { cbn [TestParser.test_to_errors TestParser.testname]. apply lookup_insert_eq. }
      exists st'. split; [done|]. split; [|done].
      rewrite Hm. cbn [TestParser.test_to_errors TestParser.testname].
      destruct (decide (TestParser.clean_name name = name)) as [->|Hne].
      * rewrite lookup_insert_eq. eauto.
      * rewrite !lookup_insert_ne by done. rewrite lookup_insert_eq. eauto.
    + edestruct (collect_registered line) as (st' & E & Hn & Hg' & Hp' & Hm);
        [|rewrite E].
      { cbn [TestParser.test_to_errors TestParser.testname]. apply lookup_insert_eq. }
      exists st'. unfold TestParser.register in *.
      cbn [TestParser.test_to_errors TestParser.testname
           TestParser.grab_next_line] in *.
      split; [done|]. split.
      * rewrite Hm, lookup_insert_eq. eauto.
      * intros _. rewrite Hm, insert_insert_eq. split; [done|]. split; [congruence|reflexivity].
Qed.

Lemma test_name_after_last_comma_witness :
  exists st',
    TestParser.parse_line (TestParser.test_trigger_txt_list TestParser.default_groups)
      TestParser.initial (str "TEST_F(VkLayerTest, Foo) {" ++ [nl]) = Ok st'
    /\ is_Some (TestParser.test_to_errors st' !! str "Foo")
    /\ (TestParser.grab_next_line TestParser.initial = false ->
        TestParser.testname st' = str "Foo"
        /\ TestParser.grab_next_line st' = false
        /\ TestParser.test_to_errors st'
           = <[str "Foo" := test_vuid_list (str "TEST_F(VkLayerTest, Foo) {" ++ [nl])]>
               (TestParser.test_to_errors TestParser.initial)).
Proof.
  apply (test_name_after_last_comma
           (TestParser.test_trigger_txt_list TestParser.default_groups)
           TestParser.initial (str "TEST_F(VkLayerTest, Foo) {" ++ [nl])
           (str " Foo) {" ++ [nl])).
  - reflexivity.
  - vm_compute. reflexivity.
  - intros tok. vm_compute. intros [= <-]. reflexivity.
  - vm_compute. reflexivity.
  - vm_compute. reflexivity.
Defined.

(** The design's reading of the rule, to compare the parser with: the
    text after the first comma of the line. *)
Fixpoint after_first_comma (line : pystr) : pystr :=
  match line with
  | [] => []
  | c :: rest => if Ascii.eqb c ","%char then rest else after_first_comma rest
  end.

(** C7 (as stated) fails on a trigger line with two commas: the name
    registered is the text after the last comma. *)
Lemma test_name_first_comma_counterexample :
  let line := str "TEST_F(VkLayerTest, Foo, Bar) {" ++ [nl] in
  TestParser.clean_name (after_first_comma line) = str "Foo, Bar"
  /\ exists st',
       TestParser.parse_line (TestParser.test_trigger_txt_list TestParser.default_groups)
         TestParser.initial line = Ok st'
       /\ TestParser.testname st' = str "Bar"
       /\ TestParser.test_to_errors st' !! str "Bar" = Some []
       /\ TestParser.test_to_errors st' !! str "Foo, Bar" = None.
Proof.
  cbv zeta. split; [vm_compute; reflexivity|].
  eexists. split; [vm_compute; reflexivity|].
  repeat split; vm_compute; reflexivity.
Qed.

(* ===================================================================== *)
(** ** Loading validusage.json *)
(* ===================================================================== *)

(** The values that can be added to a set. *)
Definition is_scalar (v : ValidationJSON.json) : bool :=
  match v with
  | ValidationJSON.JArr _ | ValidationJSON.JObj _ => false
  | _ => true
  end.

Lemma add_all_outcome (vs : list ValidationJSON.json) (X : gset ValidationJSON.scalar) :
  if forallb is_scalar vs
  then exists Y, ValidationJSON.add_all vs X = Ok Y
  else ValidationJSON.add_all vs X = Raise TypeError.
Proof.
  revert X; induction vs as [|v vs IH]; intros X; simpl; [eauto|].
  destruct v; simpl; try apply IH; reflexivity.
Qed.

(** C9 (amended). [read] stops the run, with a non-zero exit status, in
    four cases and in no other: the file is absent ([AttributeError]); the
    document is a mapping, an array or a string of length 0 ([sys.exit(-1)]);
    the document is a number, a boolean or null ([TypeError]); a value
    yielded by the walk is an array or a mapping ([TypeError]).  On every
    other document, that is a non-empty mapping, array or string whose
    yielded values are all scalars, it returns. *)
Theorem json_read_outcomes (file : option ValidationJSON.json) :
  match file with
  | None => ValidationJSON.read file = Raise AttributeError
  | Some d =>
      match ValidationJSON.py_len d with
      | Raise _ => ValidationJSON.read file = Raise TypeError
      | Ok 0 => ValidationJSON.read file = Raise (SystemExit (-1))
      | Ok (S _) =>
          if forallb is_scalar (ValidationJSON.ExtractVUIDs d)
          then exists vuids, ValidationJSON.read file = Ok vuids
          else ValidationJSON.read file = Raise TypeError
      end
  end
  /\ match ValidationJSON.read file with
     | Ok _ => True
     | Raise e => Main.exit_status (Raise e) <> 0%Z
     end.
Proof.
  assert (match file with
          | None => ValidationJSON.read file = Raise AttributeError
          | Some d =>
              match ValidationJSON.py_len d with
              | Raise _ => ValidationJSON.read file = Raise TypeError
              | Ok 0 => ValidationJSON.read file = Raise (SystemExit (-1))
              | Ok (S _) =>
                  if forallb is_scalar (ValidationJSON.ExtractVUIDs d)
                  then exists vuids, ValidationJSON.read file = Ok vuids
                  else ValidationJSON.read file = Raise TypeError
              end
          end) as H.
  { destruct file as [d|]; [|reflexivity]. unfold ValidationJSON.read.
    destruct (ValidationJSON.py_len d) as [[|n]|e] eqn:E; cbn [bind Nat.eqb].
    - reflexivity.
    - apply add_all_outcome.
    - destruct d; simpl in E; congruence. }
  split; [exact H|].
  destruct file as [d|]; [|by rewrite H].
  destruct (ValidationJSON.py_len d) as [[|n]|e]; [by rewrite H| |by rewrite H].
  destruct (forallb is_scalar (ValidationJSON.ExtractVUIDs d)).
  - destruct H as [vuids ->]. done.
  - by rewrite H.
Qed.

(** C9 (as stated) fails: a document that is a number is not empty, and a
    mapping whose vuid entry holds an array is not empty either; on both
    the load stops with a [TypeError]. *)
Lemma json_nonempty_document_counterexample :
  ValidationJSON.read (Some (ValidationJSON.JNum 42)) = Raise TypeError
  /\ ValidationJSON.read
       (Some (ValidationJSON.JObj
                [(ValidationJSON.vuid_key,
                  ValidationJSON.JArr [ValidationJSON.JStr (str "VUID-vkFoo-a-00001")])]))
     = Raise TypeError.
Proof. split; reflexivity. Qed.

(** When [read] stops, [main] stops with it and returns no report. *)
Lemma json_abort_stops_main (verbose : bool) (db_lines : list pystr)
  (val_db : ValidationDatabase.state) (file : option ValidationJSON.json) (e : exn)
  (source_files : list (pystr * list pystr)) (test_lines : list pystr) :
  ValidationDatabase.read db_lines = Ok val_db ->
  ValidationJSON.read file = Raise e ->
  Main.main verbose db_lines file source_files test_lines = Raise e.
Proof. intros H1 H2. unfold Main.main. by rewrite H1, H2. Qed.

(* ===================================================================== *)
(** ** The allow-list of duplicates *)
(* ===================================================================== *)

Section AllowList.

Import ValidationSource.

Definition unquoted (st : state) : Prop :=
  map_Forall (fun k _ => head k <> Some dquote) (vuid_count_dict st).

Lemma stripped_unquoted (tok : pystr) : head (strip_chars strip_set tok) <> Some dquote.
Proof.
  destruct (strip_chars strip_set tok) as [|c r] eqn:E; [done|].
  intros [= ->]. apply strip_by_head in E. discriminate.
Qed.

Lemma record_vuid_unquoted sf n st tok :
  unquoted st -> unquoted (record_vuid sf n st (strip_chars strip_set tok)).
Proof.
  unfold unquoted, record_vuid. intros H.
  destruct (vuid_count_dict st !! _); simpl;
    (apply map_Forall_insert_2; [apply stripped_unquoted|done]).
Qed.

Lemma unquoted_not_in_list (k : pystr) (l : list pystr) :
  head k <> Some dquote -> Forall (fun e => head e = Some dquote) l ->
  in_list k l = false.
Proof.
  intros Hk. induction 1 as [|e l He _ IH]; simpl; [done|].
  rewrite IH, orb_false_r. unfold pystr_eqb. apply bool_decide_eq_false.
  intros ->. done.
Qed.

(** No key of the occurrence map is a member of the allow-list, whose
    entries begin with a double quote: the test made on every key with
    more than one occurrence never excludes it. *)
Lemma allow_list_never_applies (files : list (pystr * list pystr)) :
  exists st, parse files = Ok st /\
    map_Forall (fun k e => Main.is_duplicate (k, e) = (1 <? count e))
      (vuid_count_dict st).
Proof.
  destruct (scan_files_inv unquoted) with (files := files) (st := initial)
    as (st & E & H).
  - intros. by apply record_vuid_unquoted.
  - intros st p H. exact H.
  - apply map_Forall_empty.
  - exists st. split; [exact E|]. intros k e Hk. unfold Main.is_duplicate. cbn [fst snd].
    rewrite unquoted_not_in_list; [by rewrite andb_true_r|by eapply H|].
    unfold Main.duplicate_exceptions. by repeat constructor.
Qed.

End AllowList.

Definition scenario_db (vuid : string) : list pystr :=
  [ str "# error database" ++ [nl];
    db_line_of ["VALIDATION_ERROR_1"; "Y"; "None"; "vkDestroyInstance"; vuid;
                "core"; "msg"; "note"]%string ].

Definition scenario_json (vuid : string) : option ValidationJSON.json :=
  Some (ValidationJSON.JObj
          [(str "validation",
            ValidationJSON.JObj
              [(str "vkDestroyInstance",
                ValidationJSON.JObj
                  [(str "core",
                    ValidationJSON.JArr
                      [ValidationJSON.JObj
                         [(ValidationJSON.vuid_key, ValidationJSON.JStr (str vuid));
                          (str "text", ValidationJSON.JStr (str "msg"))]])])])]).

Definition scenario_use (vuid : string) : pystr :=
  str "    skip |= log_msg(report_data, " ++ Main.quoted vuid ++ str ", msg);" ++ [nl].

Definition scenario_tests : list pystr :=
  [ str "TEST_F(VkLayerTest, Foo) {" ++ [nl]; str "}" ++ [nl] ].

(** C8. The first identifier of the allow-list, used on two lines of a
    source file and consistent everywhere else: the run ends with status 0,
    yet the flag of multiple uses is set and the identifier is listed with
    its two locations.  The keys of the occurrence map are stripped of
    their double quotes, the entries of the allow-list are not. *)
Theorem allow_listed_duplicate_reported :
  let vuid := "VUID-vkDestroyInstance-instance-00629"%string in
  In (Main.quoted vuid) Main.duplicate_exceptions
  /\ exists rep,
       Main.main true (scenario_db vuid) (scenario_json vuid)
         [(str "a.cpp", [scenario_use vuid; scenario_use vuid])] scenario_tests
       = Ok rep
       /\ Main.result_code rep = 0%Z
       /\ Main.multiple_uses rep = true
       /\ Main.listed_duplicates rep
          = [(str vuid, ValidationSource.mk_entry 2 [str "a.cpp,1"; str "a.cpp,2"])].
Proof.
  cbv zeta. split; [left; reflexivity|].
  eexists. split; [vm_compute; reflexivity|].
  repeat split; vm_compute; reflexivity.
Qed.

Lemma exit_status_characterization_witness :
  exists rep,
    Main.main false (scenario_db "VUID-vkFoo-a-00001") (scenario_json "VUID-vkFoo-a-00001")
      [(str "a.cpp", [scenario_use "VUID-vkFoo-a-00001"])] scenario_tests = Ok rep
    /\ (Main.exit_status (Ok rep) = 0%Z \/ Main.exit_status (Ok rep) = 1%Z).
Proof.
  eexists. split; [vm_compute; reflexivity|].
  match goal with
  | |- Main.exit_status (Ok ?r) = _ \/ _ =>
      destruct (exit_status_characterization false
                  (scenario_db "VUID-vkFoo-a-00001") (scenario_json "VUID-vkFoo-a-00001")
                  [(str "a.cpp", [scenario_use "VUID-vkFoo-a-00001"])] scenario_tests r)
        as (? & ? & ? & ? & _ & _ & _ & _ & H & _)
  end.
  - vm_compute. reflexivity.
  - exact H.
Defined.

(** The test itself does exclude a key that is literally an entry of the
    allow-list, whatever its count. *)
Lemma allow_list_filter (k : pystr) (e : ValidationSource.vuid_entry) :
  In k Main.duplicate_exceptions -> Main.is_duplicate (k, e) = false.
Proof.
  intros H. unfold Main.is_duplicate. cbn [fst snd].
  replace (in_list k Main.duplicate_exceptions) with true; [by rewrite andb_false_r|].
  symmetry. apply existsb_exists. exists k. split; [done|].
  unfold pystr_eqb. by apply bool_decide_eq_true.
Qed.

(* ===================================================================== *)
(** ** Further facts on the readers *)
(* ===================================================================== *)

(** Induction on a document, with the property known of the elements of
    an array and of the values of a mapping. *)
Lemma json_nested_ind (P : ValidationJSON.json -> Prop) :
  P ValidationJSON.JNull ->
  (forall b, P (ValidationJSON.JBool b)) ->
  (forall n, P (ValidationJSON.JNum n)) ->
  (forall s, P (ValidationJSON.JStr s)) ->
  (forall elems, Forall P elems -> P (ValidationJSON.JArr elems)) ->
  (forall items, Forall (fun kv => P kv.2) items -> P (ValidationJSON.JObj items)) ->
  forall d, P d.
Proof.
  intros HNull HBool HNum HStr HArr HObj. fix IH 1.
  intros [|b|n|s|elems|items];
    [exact HNull|apply HBool|apply HNum|apply HStr| |].
  - apply HArr. induction elems as [|e elems IHe]; constructor; [apply IH|exact IHe].
  - apply HObj. induction items as [|[k v] items IHi]; constructor; [apply IH|exact IHi].
Qed.

(** Whatever [ExtractVUIDs] yields, from a document or from the elements
    of an array, is the value of a vuid entry. *)
Lemma extract_sound_nested (d : ValidationJSON.json) :
  (forall v, In v (ValidationJSON.ExtractVUIDs d) -> In v (all_vuid_values d))
  /\ match d with
     | ValidationJSON.JArr elems =>
         forall v, In v (flat_map ValidationJSON.ExtractVUIDs elems) ->
                   In v (flat_map all_vuid_values elems)
     | _ => True
     end.
Proof.
  induction d as [| | | |elems IH|items IH] using json_nested_ind;
    try (split; [intros v []|exact I]).
  - split; [intros v []|].
    induction IH as [|e elems [He _] _ IHe]; cbn [flat_map]; [done|].
    intros v [H|H]%in_app_iff; apply in_app_iff; [left; by apply He|right; by apply IHe].
  - split; [|exact I]. cbn [ValidationJSON.ExtractVUIDs all_vuid_values].
    induction IH as [|[k x] items Hx _ IHitems]; cbn [flat_map]; [done|].
    intros v. rewrite !in_app_iff. intros [H|H]; [left|right; exact (IHitems v H)].
    cbn [snd] in Hx. destruct Hx as [Hx1 Hx2].
    destruct (pystr_eqb k ValidationJSON.vuid_key); [by left|right].
    destruct x as [| | | |elems|items']; try done.
    + by apply Hx2.
    + by apply Hx1.
Qed.

Lemma extract_sound (d v : ValidationJSON.json) :
  In v (ValidationJSON.ExtractVUIDs d) -> In v (all_vuid_values d).
Proof. apply extract_sound_nested. Qed.

(** A database line with fewer than eight fields stops the load. *)
Lemma short_line_raises (st : ValidationDatabase.state) (raw : pystr) :
  startswith (strip raw) (str "#") = false ->
  strip raw <> [] ->
  length (split_on ValidationDatabase.delimiter (strip raw)) < 8 ->
  ValidationDatabase.read_line st raw = Raise IndexError.
Proof.
  intros Hc Hne Hlen. unfold ValidationDatabase.read_line. rewrite Hc.
  unfold pystr_eqb. rewrite bool_decide_eq_false_2 by done. cbn [orb].
  destruct (split_on ValidationDatabase.delimiter (strip raw))
    as [|f0 [|f1 [|f2 [|f3 [|f4 [|f5 [|f6 [|f7 fs]]]]]]]];
    try reflexivity.
  simpl in Hlen. lia.
Qed.

(** A database line with more than eight fields is stored like a line of
    eight, after the error is printed. *)
Lemma long_line_stored (st : ValidationDatabase.state) (raw : pystr)
  (f0 f1 f2 f3 f4 f5 f6 f7 f8 : pystr) (fs : list pystr) :
  startswith (strip raw) (str "#") = false ->
  strip raw <> [] ->
  split_on ValidationDatabase.delimiter (strip raw)
  = f0 :: f1 :: f2 :: f3 :: f4 :: f5 :: f6 :: f7 :: f8 :: fs ->
  ValidationDatabase.read_line st raw
  = Ok (ValidationDatabase.store
          (ValidationDatabase.print st (ValidationDatabase.bad_line_message (strip raw)))
          f4 (ValidationDatabase.mk_entry f0 f1 f2 f3 f5 f6 f7)).
Proof.
  intros Hc Hne E. unfold ValidationDatabase.read_line. rewrite Hc.
  unfold pystr_eqb. rewrite bool_decide_eq_false_2 by done. cbn [orb].
  rewrite E. reflexivity.
Qed.

(** The last field of a line split at its commas is the text after the
    last comma, or the whole line when it has none. *)
Lemma last_field_aux (cur s field : pystr) :
  ~ In ","%char cur ->
  last_item (split_on_aux (str ",") 0 cur s) = Some field ->
  ~ In ","%char field
  /\ (rev cur ++ s = field \/ exists a, rev cur ++ s = a ++ ","%char :: field).
Proof.
  unfold last_item. revert cur; induction s as [|x s IH]; intros cur Hcur.
  - cbn [split_on_aux]. intros [= <-]. rewrite app_nil_r. split; [|by left].
    by rewrite <- in_rev.
  - cbn [split_on_aux]. change (str ",") with [","%char].
    cbn [startswith length Nat.sub]. rewrite startswith_nil, andb_true_r.
    destruct (Ascii.eqb_spec ","%char x) as [<-|Hx].
    + rewrite last_cons.
      destruct (last (split_on_aux [","%char] 0 [] s)) as [f|] eqn:E.
      * intros [= ->]. destruct (IH [] (fun H => H) E) as [Hf [Hs|[a Hs]]].
        -- split; [done|]. right. exists (rev cur). simpl in Hs. by rewrite Hs.
        -- split; [done|]. right. exists (rev cur ++ ","%char :: a).
           simpl in Hs. rewrite Hs, <- app_assoc. done.
      * apply last_None in E. by apply split_on_aux_nonnil in E.
    + intros E.
      assert (~ In ","%char (x :: cur)) as Hcur' by (simpl; intros [?|?]; done).
      destruct (IH (x :: cur) Hcur' E) as [Hf Hs].
      split; [done|]. simpl in Hs. by rewrite <- !app_assoc in Hs.
Qed.

Lemma last_field_after_last_comma (line field : pystr) :
  last_item (split_on (str ",") line) = Some field ->
  ~ In ","%char field
  /\ (line = field \/ exists a, line = a ++ ","%char :: field).
Proof. intros H. apply (last_field_aux [] line field); [by intros []|exact H]. Qed.

(* ===================================================================== *)
(** * Further properties of the script *)
(* ===================================================================== *)

(* ===================================================================== *)
(** ** The source scanner: what a scan keeps *)
(* ===================================================================== *)

Section ScanInvariantAt.

Import ValidationSource.

(** As [scan_files_inv], for a property that may depend on where an
    occurrence is recorded and on the token it comes from: [A sf n] says
    that line [n] of file [sf] is a line of the scan. *)
Variable P : state -> Prop.
Variable A : pystr -> nat -> Prop.
Hypothesis P_record : forall sf n st tok,
  A sf n -> contains tok VUID_marker = true -> P st ->
  P (record_vuid sf n st (strip_chars strip_set tok)).
Hypothesis P_prepend : forall st p, P st -> P (set_prepend st p).

Lemma record_tokens_at sf n toks st :
  A sf n -> P st ->
  P (fold_left (record_vuid sf n)
       (map (strip_chars strip_set)
            (filter (fun tok => Is_true (contains tok VUID_marker)) toks)) st).
Proof.
  intros HA. revert st; induction toks as [|t toks IH]; intros st HP; [done|].
  destruct (contains t VUID_marker) eqn:E.
  - rewrite filter_cons_True by (by rewrite E). cbn [map fold_left]. auto.
  - rewrite filter_cons_False by (rewrite E; intros []). auto.
Qed.

Lemma find_vuids_at sf n st line :
  A sf n -> P st -> exists st', find_vuids sf n st line = Ok st' /\ P st'.
Proof.
  intros HA HP. unfold find_vuids.
  destruct (contains line VUID_marker) eqn:Hc; [|eauto].
  destruct (marker_has_token line Hc) as [tok ->].
  destruct (is_broken_vuid tok); [eauto|].
  eexists. split; [reflexivity|]. by apply record_tokens_at.
Qed.

Lemma scan_line_at sf n st line :
  A sf n -> P st -> exists st', scan_line sf n st line = Ok st' /\ P st'.
Proof.
  intros HA HP. unfold scan_line.
  destruct (is_comment_line line); [eauto|].
  destruct (prepend st); auto using find_vuids_at.
Qed.

Lemma scan_lines_at sf n lines st :
  (forall i, n < i <= n + length lines -> A sf i) -> P st ->
  exists st', scan_lines sf n lines st = Ok st' /\ P st'.
Proof.
  revert n st; induction lines as [|l lines IH]; intros n st HA HP; simpl; [eauto|].
  destruct (scan_line_at sf (S n) st l) as (st1 & -> & HP1); [apply HA; simpl; lia|done|].
  cbn [bind]. apply IH; [|done]. intros i Hi. apply HA. simpl. lia.
Qed.

Lemma scan_files_at files st :
  (forall sf lines i, In (sf, lines) files -> 1 <= i <= length lines -> A sf i) ->
  P st -> exists st', scan_files files st = Ok st' /\ P st'.
Proof.
  revert st; induction files as [|[sf lines] files IH]; intros st HA HP; simpl; [eauto|].
  destruct (scan_lines_at sf 0 lines st) as (st1 & -> & HP1);
    [intros i Hi; apply (HA sf lines); [by left|lia]|done|].
  cbn [bind]. apply IH; [|done]. intros sf' lines' i Hin. apply HA. by right.
Qed.

End ScanInvariantAt.

Section KeyShape.

Import ValidationSource.

Lemma strip_by_last f (s r : pystr) c : strip_by f s = r ++ [c] -> f c = false.
Proof.
  unfold strip_by, rstrip_by. intros H.
  apply (f_equal (@rev ascii)) in H. rewrite rev_involutive, rev_app_distr in H.
  simpl in H. by apply lstrip_by_head in H.
Qed.

(** Stripping does not reach into a run of characters that are not
    stripped. *)
Lemma strip_by_core f (a m b : pystr) :
  Forall (fun c => f c = false) m -> m <> [] ->
  exists y z, strip_by f (a ++ m ++ b) = y ++ m ++ z.
Proof.
  intros Hm Hne.
  assert (exists c m', m = c :: m' /\ f c = false) as (c & m' & Ec & Hc).
  { destruct m as [|c m']; [done|]. apply Forall_cons in Hm as [Hc _]. eauto. }
  assert (exists m0 d, m = m0 ++ [d] /\ f d = false) as (m0 & d & Ed & Hd).
  { destruct (exists_last Hne) as (m0 & d & E). exists m0, d. split; [done|].
    rewrite E in Hm. apply Forall_app in Hm as [_ Hm]. by apply Forall_inv in Hm. }
  destruct (lstrip_by_snoc f a c Hc) as [y Hy].
  exists y, (rstrip_by f b). unfold strip_by.
  transitivity (rstrip_by f (y ++ m ++ b)).
  - f_equal. rewrite Ec. cbn [app]. rewrite lstrip_by_keep, Hy by done.
    by rewrite <- app_assoc.
  - rewrite Ed, <- !app_assoc. cbn [app]. rewrite (app_assoc y m0).
    rewrite rstrip_by_keep by done. by rewrite <- app_assoc.
Qed.

(** The shape of an identifier as it is recorded. *)
Definition key_ok (k : pystr) : Prop :=
  contains k (str "VUID-") = true
  /\ (forall c, head k = Some c -> in_chars strip_set c = false)
  /\ (forall c, last k = Some c -> in_chars strip_set c = false).

Lemma stripped_token_ok (tok : pystr) :
  contains tok VUID_marker = true -> key_ok (strip_chars strip_set tok).
Proof.
  intros (a & b & ->)%contains_iff. split; [|split].
  - change (a ++ VUID_marker ++ b) with (a ++ [dquote] ++ str "VUID-" ++ b).
    rewrite (app_assoc a). unfold strip_chars.
    destruct (strip_by_core (in_chars strip_set) (a ++ [dquote]) (str "VUID-") b)
      as (y & z & ->); [by repeat constructor|done|].
    apply contains_middle.
  - intros c Hc. destruct (strip_chars _ _) as [|c' r] eqn:E; [done|].
    injection Hc as ->. by apply strip_by_head in E.
  - intros c Hc. apply last_Some in Hc as [r E]. by apply strip_by_last in E.
Qed.

End KeyShape.

(** X1. Every identifier of the occurrence map contains "VUID-" and
    neither begins nor ends with one of the characters stripped from a
    token: comma, closing parenthesis, semicolon, braces, double quote. *)
Theorem recorded_keys_shape (files : list (pystr * list pystr)) :
  exists st, ValidationSource.parse files = Ok st /\
    map_Forall (fun k _ => key_ok k) (ValidationSource.vuid_count_dict st).
Proof.
  apply (scan_files_at
           (fun st => map_Forall (fun k _ => key_ok k) (ValidationSource.vuid_count_dict st))
           (fun _ _ => True)).
  - intros sf n st tok _ Ht H. unfold ValidationSource.record_vuid.
    destruct (ValidationSource.vuid_count_dict st !! _); simpl;
      (apply map_Forall_insert_2; [by apply stripped_token_ok|done]).
  - intros st p H. exact H.
  - done.
  - apply map_Forall_empty.
Qed.

(** X2. Every location recorded for an identifier is the text "file,line"
    of a file of the list and of a line number between 1 and the number of
    lines of that file. *)
Theorem recorded_locations_in_files (files : list (pystr * list pystr)) :
  exists st, ValidationSource.parse files = Ok st /\
    map_Forall
      (fun _ e =>
         Forall (fun loc => exists sf lines i,
                     In (sf, lines) files /\ 1 <= i <= length lines
                     /\ loc = ValidationSource.location sf i)
                (ValidationSource.file_line e))
      (ValidationSource.vuid_count_dict st).
Proof.
  apply (scan_files_at
           (fun st => map_Forall
              (fun _ e =>
                 Forall (fun loc => exists sf lines i,
                             In (sf, lines) files /\ 1 <= i <= length lines
                             /\ loc = ValidationSource.location sf i)
                        (ValidationSource.file_line e))
              (ValidationSource.vuid_count_dict st))
           (fun sf i => exists lines, In (sf, lines) files /\ 1 <= i <= length lines)).
  - intros sf n st tok (lines & Hin & Hi) _ H. unfold ValidationSource.record_vuid.
    destruct (ValidationSource.vuid_count_dict st !! _) as [e|] eqn:E; simpl;
      (apply map_Forall_insert_2; [|done]); simpl.
    + apply Forall_app. split; [exact (H _ _ E)|]. apply Forall_singleton. eauto 6.
    + apply Forall_singleton. eauto 6.
  - intros st p H. exact H.
  - intros sf lines i Hin Hi. eauto.
  - apply map_Forall_empty.
Qed.

(** X3. A comment line can be added anywhere in a file without changing
    the identifiers found, their counts, or the fragment left pending: it
    is skipped even between the two lines of a broken identifier. *)
Theorem comment_line_is_inert
  (files1 files2 : list (pystr * list pystr)) (sf : pystr)
  (pre post : list pystr) (c : pystr) :
  is_comment_line c = true ->
  exists st1 st2,
    ValidationSource.parse (files1 ++ (sf, pre ++ c :: post) :: files2) = Ok st1
    /\ ValidationSource.parse (files1 ++ (sf, pre ++ post) :: files2) = Ok st2
    /\ counts st1 = counts st2
    /\ ValidationSource.duplicate_checks st1 = ValidationSource.duplicate_checks st2
    /\ ValidationSource.prepend st1 = ValidationSource.prepend st2.
Proof.
  intros Hc. unfold ValidationSource.parse. rewrite !scan_files_app.
  destruct (scan_files_total files1 ValidationSource.initial) as [s1 ->].
  cbn [bind ValidationSource.scan_files]. rewrite !scan_lines_app.
  destruct (scan_lines_total sf 0 pre s1) as [s ->].
  cbn [bind ValidationSource.scan_lines].
  unfold ValidationSource.scan_line at 1. rewrite Hc. cbn [bind].
  destruct (scan_lines_same sf (S (0 + length pre)) sf (0 + length pre) post s s
              (same_counts_refl s)) as (a & b & -> & -> & Hab).
  cbn [bind].
  destruct (scan_files_same files2 a b Hab) as (a2 & b2 & -> & -> & H2).
  exists a2, b2. by destruct H2 as (? & ? & ?).
Qed.

Lemma comment_line_is_inert_witness :
  exists st1 st2,
    ValidationSource.parse
      ([] ++ (str "a.cpp",
              [str "skip |= log_msg(x, " ++ VUID_marker ++ str "a" ++ broken_tail ++ [nl]]
              ++ (str "// clang-format off" ++ [nl])
              :: [str "    " ++ dquote :: str "b-00001" ++ [dquote] ++ str ");" ++ [nl]])
          :: []) = Ok st1
    /\ ValidationSource.parse
         ([] ++ (str "a.cpp",
                 [str "skip |= log_msg(x, " ++ VUID_marker ++ str "a" ++ broken_tail ++ [nl]]
                 ++ [str "    " ++ dquote :: str "b-00001" ++ [dquote] ++ str ");" ++ [nl]])
             :: []) = Ok st2
    /\ counts st1 = counts st2
    /\ ValidationSource.duplicate_checks st1 = ValidationSource.duplicate_checks st2
    /\ ValidationSource.prepend st1 = ValidationSource.prepend st2.
Proof.
  apply (comment_line_is_inert [] [] (str "a.cpp")
           [str "skip |= log_msg(x, " ++ VUID_marker ++ str "a" ++ broken_tail ++ [nl]]
           [str "    " ++ dquote :: str "b-00001" ++ [dquote] ++ str ");" ++ [nl]]
           (str "// clang-format off" ++ [nl])).
  vm_compute. reflexivity.
Defined.

(** X4. Lines that do not carry the marker, read while no fragment is
    pending, change nothing: the scanner state after them is the state
    before them. *)
Theorem unmarked_lines_change_nothing
  (sf : pystr) (n : nat) (lines : list pystr) (st : ValidationSource.state) :
  ValidationSource.prepend st = None ->
  Forall (fun line => contains line VUID_marker = false) lines ->
  ValidationSource.scan_lines sf n lines st = Ok st.
Proof.
  intros Hp H. revert n; induction H as [|l lines Hl _ IH]; intros n; simpl; [done|].
  unfold ValidationSource.scan_line, ValidationSource.find_vuids.
  destruct (is_comment_line l); [apply IH|]. rewrite Hp, Hl. apply IH.
Qed.

Lemma unmarked_lines_change_nothing_witness :
  ValidationSource.scan_lines (str "a.cpp") 0
    [str "bool skip = false;" ++ [nl]; str "return skip;" ++ [nl]]
    ValidationSource.initial
  = Ok ValidationSource.initial.
Proof.
  apply unmarked_lines_change_nothing; [reflexivity|].
  repeat constructor.
Defined.

Lemma scan_files_as_one_file (sf : pystr) (files : list (pystr * list pystr)) :
  forall n st1 st2, same_counts st1 st2 ->
    both_ok (ValidationSource.scan_files files st1)
            (ValidationSource.scan_lines sf n (concat (map snd files)) st2).
Proof.
  induction files as [|[sf' lines] files IH]; intros n st1 st2 H; simpl.
  - unfold both_ok. eauto 6.
  - rewrite scan_lines_app.
    destruct (scan_lines_same sf' 0 sf n lines st1 st2 H) as (a & b & -> & -> & Hab).
    cbn [bind]. by apply IH.
Qed.

(** X5. The boundaries between the files do not show in the identifiers
    found: scanning a list of files gives the identifiers, counts and
    pending fragment of scanning one file made of all their lines. *)
Theorem file_boundaries_do_not_matter
  (sf : pystr) (files : list (pystr * list pystr)) :
  exists st1 st2,
    ValidationSource.parse files = Ok st1
    /\ ValidationSource.parse [(sf, concat (map snd files))] = Ok st2
    /\ counts st1 = counts st2
    /\ ValidationSource.duplicate_checks st1 = ValidationSource.duplicate_checks st2
    /\ ValidationSource.prepend st1 = ValidationSource.prepend st2.
Proof.
  unfold ValidationSource.parse. cbn [ValidationSource.scan_files].
  destruct (scan_files_as_one_file sf files 0 _ _
              (same_counts_refl ValidationSource.initial)) as (a & b & -> & -> & Hab).
  cbn [bind]. exists a, b. by destruct Hab as (? & ? & ?).
Qed.

Section DuplicateChecks.

Import ValidationSource.

(** The number of occurrences recorded, all identifiers together. *)
Definition total_count (d : gmap pystr vuid_entry) : nat :=
  map_fold (fun _ e acc => count e + acc) 0 d.

Lemma total_count_insert_new d k e :
  d !! k = None -> total_count (<[k := e]> d) = count e + total_count d.
Proof.
  intros H. unfold total_count. rewrite map_fold_insert_L; [done| |done].
  intros. lia.
Qed.

Lemma total_count_insert_old d k e e' :
  d !! k = Some e -> total_count (<[k := e']> d) + count e = count e' + total_count d.
Proof.
  intros H. rewrite <- (insert_delete_id d k e H) at 2.
  rewrite <- (insert_delete_eq d k e').
  rewrite !total_count_insert_new by apply lookup_delete_eq. lia.
Qed.

Definition checks_ok (st : state) : Prop :=
  total_count (vuid_count_dict st) = size (vuid_count_dict st) + duplicate_checks st.

Lemma record_vuid_checks sf n st vuid : checks_ok st -> checks_ok (record_vuid sf n st vuid).
Proof.
  unfold checks_ok, record_vuid. intros H.
  destruct (vuid_count_dict st !! vuid) as [e|] eqn:E; simpl.
  - pose proof (total_count_insert_old (vuid_count_dict st) vuid e
                  {| count := count e + 1; file_line := file_line e ++ [location sf n] |} E)
      as Ht.
    rewrite map_size_insert_Some by done. simpl in Ht. lia.
  - rewrite total_count_insert_new, map_size_insert_None by done. simpl. lia.
Qed.

End DuplicateChecks.

(** X6. The number of duplicated checks the scanner reports is the number
    of occurrences it recorded minus the number of distinct identifiers:
    the counts of all entries add up to the size of the occurrence map plus
    [duplicate_checks]. *)
Theorem duplicate_checks_count (files : list (pystr * list pystr)) :
  exists st, ValidationSource.parse files = Ok st /\
    total_count (ValidationSource.vuid_count_dict st)
    = size (ValidationSource.vuid_count_dict st) + ValidationSource.duplicate_checks st.
Proof.
  apply (scan_files_inv checks_ok).
  - intros. by apply record_vuid_checks.
  - intros st p H. exact H.
  - unfold checks_ok. simpl. unfold total_count. by rewrite map_fold_empty, map_size_empty.
Qed.

Section CountsAdd.

Import ValidationSource.

(** Adding up two tables of counts. *)
Definition add_counts (a b : gmap pystr nat) : gmap pystr nat :=
  union_with (fun x y => Some (x + y)) a b.

Definition bump (o : option nat) : nat :=
  match o with Some c => c + 1 | None => 1 end.

Lemma counts_record sf n st vuid :
  counts (record_vuid sf n st vuid) = <[vuid := bump (counts st !! vuid)]> (counts st).
Proof.
  unfold counts, record_vuid. rewrite lookup_fmap.
  destruct (vuid_count_dict st !! vuid); simpl; by rewrite fmap_insert.
Qed.

Lemma add_counts_bump base c vuid :
  <[vuid := bump (add_counts base c !! vuid)]> (add_counts base c)
  = add_counts base (<[vuid := bump (c !! vuid)]> c).
Proof.
  apply map_eq. intros i. unfold add_counts.
  destruct (decide (vuid = i)) as [->|Hne].
  - rewrite lookup_insert_eq, !lookup_union_with, lookup_insert_eq.
    destruct (base !! i), (c !! i); simpl; f_equal; lia.
  - rewrite lookup_insert_ne by done. rewrite !lookup_union_with.
    by rewrite lookup_insert_ne by done.
Qed.

(** The state [st] holds the counts of [base] added to those of [st0]. *)
Definition counts_added (base : gmap pystr nat) (st st0 : state) : Prop :=
  counts st = add_counts base (counts st0) /\ prepend st = prepend st0.

Definition both_added (base : gmap pystr nat) (r r0 : result state) : Prop :=
  exists st st0, r = Ok st /\ r0 = Ok st0 /\ counts_added base st st0.

Lemma record_vuid_added base sf n sf0 n0 st st0 vuid :
  counts_added base st st0 ->
  counts_added base (record_vuid sf n st vuid) (record_vuid sf0 n0 st0 vuid).
Proof.
  intros [Hc Hp]. split.
  - rewrite !counts_record, Hc. apply add_counts_bump.
  - unfold record_vuid. by destruct (_ !! _), (_ !! _).
Qed.

Lemma record_all_added base sf n sf0 n0 vuids st st0 :
  counts_added base st st0 ->
  counts_added base (fold_left (record_vuid sf n) vuids st)
                    (fold_left (record_vuid sf0 n0) vuids st0).
Proof.
  revert st st0; induction vuids as [|v vuids IH]; intros st st0 H; simpl; [done|].
  apply IH. by apply record_vuid_added.
Qed.

Lemma set_prepend_added base st st0 p :
  counts_added base st st0 -> counts_added base (set_prepend st p) (set_prepend st0 p).
Proof. by intros [Hc Hp]. Qed.

Lemma find_vuids_added base sf n sf0 n0 st st0 line :
  counts_added base st st0 ->
  both_added base (find_vuids sf n st line) (find_vuids sf0 n0 st0 line).
Proof.
  intros H. unfold find_vuids, both_added.
  destruct (contains line VUID_marker) eqn:Hc; [|eauto 6].
  destruct (marker_has_token line Hc) as [tok ->].
  destruct (is_broken_vuid tok).
  - eauto 6 using set_prepend_added.
  - eauto 6 using record_all_added.
Qed.

Lemma scan_line_added base sf n sf0 n0 st st0 line :
  counts_added base st st0 ->
  both_added base (scan_line sf n st line) (scan_line sf0 n0 st0 line).
Proof.
  intros H. unfold scan_line.
  destruct (is_comment_line line); [unfold both_added; eauto 6|].
  pose proof H as [_ Hp]. rewrite Hp.
  destruct (prepend st0); apply find_vuids_added; [by apply set_prepend_added|done].
Qed.

Lemma scan_lines_added base sf n sf0 n0 lines st st0 :
  counts_added base st st0 ->
  both_added base (scan_lines sf n lines st) (scan_lines sf0 n0 lines st0).
Proof.
  revert n n0 st st0; induction lines as [|l lines IH]; intros n n0 st st0 H; simpl.
  - unfold both_added; eauto 6.
  - destruct (scan_line_added base sf (S n) sf0 (S n0) st st0 l H)
      as (a & b & -> & -> & Hab). simpl. by apply IH.
Qed.

Lemma scan_files_added base files st st0 :
  counts_added base st st0 ->
  both_added base (scan_files files st) (scan_files files st0).
Proof.
  revert st st0; induction files as [|[sf lines] files IH]; intros st st0 H; simpl.
  - unfold both_added; eauto 6.
  - destruct (scan_lines_added base sf 0 sf 0 lines st st0 H) as (a & b & -> & -> & Hab).
    simpl. by apply IH.
Qed.

End CountsAdd.

(** X7. Counts add up over a list of files: when no fragment is pending
    after the files [files1], the count of every identifier after
    [files1 ++ files2] is its count in [files1] plus its count in
    [files2], and the pending fragment is that of [files2]. *)
Theorem counts_add_over_files (files1 files2 : list (pystr * list pystr)) :
  pending_before files1 [] [] = None ->
  exists st1 st2 st,
    ValidationSource.parse files1 = Ok st1
    /\ ValidationSource.parse files2 = Ok st2
    /\ ValidationSource.parse (files1 ++ files2) = Ok st
    /\ counts st = add_counts (counts st1) (counts st2)
    /\ ValidationSource.prepend st = ValidationSource.prepend st2.
Proof.
  unfold pending_before, ValidationSource.parse. rewrite scan_files_app.
  destruct (scan_files_total files1 ValidationSource.initial) as [st1 ->].
  cbn [bind ValidationSource.scan_lines]. intros Hp.
  destruct (scan_files_added (counts st1) files2 st1 ValidationSource.initial)
    as (st & st2 & -> & -> & Hc & Hp').
  { split; [|done]. unfold add_counts, counts. simpl.
    rewrite fmap_empty. by rewrite (right_id ∅ _). }
  eauto 10.
Qed.

Lemma counts_add_over_files_witness :
  exists st1 st2 st,
    ValidationSource.parse [(str "a.cpp", [scenario_use "VUID-vkFoo-a-00001"])] = Ok st1
    /\ ValidationSource.parse
         [(str "b.cpp", [scenario_use "VUID-vkFoo-a-00001";
                         scenario_use "VUID-vkBar-b-00002"])] = Ok st2
    /\ ValidationSource.parse
         ([(str "a.cpp", [scenario_use "VUID-vkFoo-a-00001"])]
          ++ [(str "b.cpp", [scenario_use "VUID-vkFoo-a-00001";
                             scenario_use "VUID-vkBar-b-00002"])]) = Ok st
    /\ counts st = add_counts (counts st1) (counts st2)
    /\ ValidationSource.prepend st = ValidationSource.prepend st2.
Proof.
  apply counts_add_over_files. vm_compute. reflexivity.
Defined.

(* ===================================================================== *)
(** ** The test parser: files, failures and the name on the next line *)
(* ===================================================================== *)

Section TestRuns.

Import TestParser.

Lemma parse_lines_app triggers l1 l2 st :
  parse_lines triggers (l1 ++ l2) st
  = let* st' := parse_lines triggers l1 st in parse_lines triggers l2 st'.
Proof.
  revert st; induction l1 as [|l l1 IH]; intros st; simpl; [done|].
  destruct (parse_line triggers st l); simpl; [apply IH|done].
Qed.

(** A test has been declared: its name has an entry, or the name is
    awaited on the next line. *)
Definition declared (st : state) : Prop :=
  grab_next_line st = true \/ is_Some (test_to_errors st !! testname st).

(** No test has been declared yet. *)
Definition undeclared (st : state) : Prop :=
  grab_next_line st = false /\ testname st = [] /\ test_to_errors st !! [] = None.

Lemma collect_declared st line :
  is_Some (test_to_errors st !! testname st) ->
  exists st', collect st line = Ok st' /\ declared st'.
Proof.
  intros [l Hl]. destruct (collect_registered line st l Hl) as (st' & -> & Hn & _ & _ & Hm).
  exists st'. split; [done|]. right. rewrite Hm, Hn, lookup_insert_eq. eauto.
Qed.

Lemma after_trigger_declared st line :
  declared st -> exists st', after_trigger st line = Ok st' /\ declared st'.
Proof.
  intros H. unfold after_trigger. destruct (grab_next_line st) eqn:Hg.
  - apply collect_declared. cbn [test_to_errors testname].
    rewrite lookup_insert_eq. eauto.
  - apply collect_declared. by destruct H as [H|H]; [congruence|].
Qed.

Lemma declare_trigger triggers st line :
  existsb (contains line) triggers = true ->
  exists st', declare triggers st line = Ok st' /\ declared st'.
Proof.
  intros Ht. unfold declare. rewrite Ht.
  destruct (last_item (split_on (str ",") line)) as [field|] eqn:E.
  - destruct (clean_name field) as [|c name] eqn:En.
    + eexists. split; [reflexivity|]. by left.
    + apply after_trigger_declared. right. unfold register.
      cbn [test_to_errors testname]. rewrite lookup_insert_eq. eauto.
  - apply last_None in E. by apply split_on_aux_nonnil in E.
Qed.

Lemma declare_declared triggers st line :
  declared st -> exists st', declare triggers st line = Ok st' /\ declared st'.
Proof.
  intros H. destruct (existsb (contains line) triggers) eqn:Ht.
  - by apply declare_trigger.
  - unfold declare. rewrite Ht. by apply after_trigger_declared.
Qed.

Lemma check_broken_declared triggers st line :
  declared st -> exists st', check_broken triggers st line = Ok st' /\ declared st'.
Proof.
  intros H. unfold check_broken.
  destruct (contains line VUID_marker) eqn:Hm; [|by apply declare_declared].
  destruct (marker_has_token line Hm) as [tok ->].
  destruct (is_broken_vuid tok); [eauto|by apply declare_declared].
Qed.

Lemma parse_line_declared triggers st line :
  declared st -> exists st', parse_line triggers st line = Ok st' /\ declared st'.
Proof.
  intros H. unfold parse_line. destruct (is_comment_line line); [eauto|].
  destruct (prepend st); by apply check_broken_declared.
Qed.

Lemma parse_lines_declared triggers lines st :
  declared st -> exists st', parse_lines triggers lines st = Ok st' /\ declared st'.
Proof.
  revert st; induction lines as [|l lines IH]; intros st H; simpl; [eauto|].
  destruct (parse_line_declared triggers st l H) as (st1 & -> & H1). simpl. auto.
Qed.

(** Before any declaration a line either leaves the parser as it is, or
    declares a test, or stops it with the [KeyError] of the empty name. *)
Lemma parse_line_undeclared triggers st line :
  undeclared st ->
  (exists st', parse_line triggers st line = Ok st' /\ (undeclared st' \/ declared st'))
  \/ parse_line triggers st line = Raise (KeyError []).
Proof.
  intros (Hg & Hn & Hm).
  assert (forall p, undeclared (set_prepend st p)) as Hset by done.
  assert (forall st0 l, undeclared st0 ->
            (exists st', check_broken triggers st0 l = Ok st'
                         /\ (undeclared st' \/ declared st'))
            \/ check_broken triggers st0 l = Raise (KeyError [])) as Hcb.
  { intros st0 l (Hg0 & Hn0 & Hm0).
    assert ((exists st', declare triggers st0 l = Ok st'
                         /\ (undeclared st' \/ declared st'))
            \/ declare triggers st0 l = Raise (KeyError [])) as Hd.
    { destruct (existsb (contains l) triggers) eqn:Ht.
      - left. destruct (declare_trigger triggers st0 l Ht) as (st' & E & H'). eauto.
      - unfold declare, after_trigger. rewrite Ht, Hg0.
        destruct (contains l VUID_marker) eqn:Hc.
        + right. replace (KeyError []) with (KeyError (testname st0)) by (by rewrite Hn0).
          apply collect_unregistered; [by rewrite Hn0|done].
        + left. exists st0. unfold collect. rewrite Hc. split; [done|]. by left. }
    unfold check_broken. destruct (contains l VUID_marker) eqn:Hc; [|exact Hd].
    destruct (marker_has_token l Hc) as [tok ->].
    destruct (is_broken_vuid tok); [|exact Hd].
    left. eexists. split; [reflexivity|]. by left. }
  unfold parse_line. destruct (is_comment_line line).
  - left. exists st. split; [done|]. by left.
  - destruct (prepend st); apply Hcb; done.
Qed.

Lemma parse_lines_undeclared triggers lines st :
  undeclared st ->
  (exists st', parse_lines triggers lines st = Ok st' /\ (undeclared st' \/ declared st'))
  \/ parse_lines triggers lines st = Raise (KeyError []).
Proof.
  revert st; induction lines as [|l lines IH]; intros st H; simpl.
  - left. exists st. split; [done|]. by left.
  - destruct (parse_line_undeclared triggers st l H) as [(st1 & -> & [H1|H1])| ->];
      cbn [bind]; [by apply IH| |by right].
    left. destruct (parse_lines_declared triggers lines st1 H1) as (st' & -> & H').
    eauto.
Qed.

End TestRuns.

Lemma test_files_parse_as_one_aux
  (triggers : list pystr) (files : list (list pystr)) (st : TestParser.state) :
  TestParser.parse_files triggers files st
  = TestParser.parse_lines triggers (concat files) st.
Proof.
  revert st; induction files as [|lines files IH]; intros st; simpl; [done|].
  rewrite parse_lines_app.
  destruct (TestParser.parse_lines triggers lines st); simpl; [apply IH|done].
Qed.

(** X8. The test parser keeps no state per file: parsing a list of test
    files is parsing the one file made of all their lines, from any state
    (the current test name, the pending name flag and a pending fragment
    pass from a file to the next). *)
Theorem test_files_parse_as_one
  (triggers : list pystr) (files : list (list pystr)) (st : TestParser.state) :
  TestParser.parse_files triggers files st
  = TestParser.parse_lines triggers (concat files) st.
Proof. apply test_files_parse_as_one_aux. Qed.

(** X9. Once a test has been declared (its name has an entry in the test
    map, or its name is awaited on the next line) the parser cannot fail:
    whatever lines follow it returns, with a test still declared. *)
Theorem declared_parser_returns
  (triggers : list pystr) (files : list (list pystr)) (st : TestParser.state) :
  declared st ->
  exists st', TestParser.parse_files triggers files st = Ok st' /\ declared st'.
Proof.
  intros H. rewrite test_files_parse_as_one_aux. by apply parse_lines_declared.
Qed.

Lemma declared_parser_returns_witness :
  exists st',
    TestParser.parse_files (TestParser.test_trigger_txt_list TestParser.default_groups)
      [[scenario_use "VUID-vkFoo-a-00001"]]
      (TestParser.register TestParser.initial (str "Foo")) = Ok st'
    /\ declared st'.
Proof.
  apply declared_parser_returns. right. vm_compute. eauto.
Defined.

(** X10. The only failure of the test parser is the [KeyError] of the
    empty test name, raised by an identifier read before any test is
    declared: on any files and group names [parse] returns, or raises
    that error. *)
Theorem test_parser_only_key_error (groups : list pystr) (files : list (list pystr)) :
  (exists st, TestParser.parse groups files = Ok st)
  \/ TestParser.parse groups files = Raise (KeyError []).
Proof.
  unfold TestParser.parse. rewrite test_files_parse_as_one_aux.
  destruct (parse_lines_undeclared (TestParser.test_trigger_txt_list groups)
              (concat files) TestParser.initial) as [(st & E & _)|E]; [done| |].
  - left. eauto.
  - by right.
Qed.

(** X11. The name of a test written on the line after its trigger is not
    read from that line.  When a trigger line yields an empty name and the
    next line is an ordinary line (no comment, no trigger, no broken
    identifier tail), the two lines register the empty test name, with the
    identifiers of the second line, and leave the empty name current. *)
Theorem name_on_next_line_is_lost
  (triggers : list pystr) (st : TestParser.state) (line1 field line2 : pystr) :
  TestParser.prepend st = None ->
  is_comment_line line1 = false ->
  (forall tok, last_item (split_ws line1) = Some tok -> is_broken_vuid tok = false) ->
  existsb (contains line1) triggers = true ->
  last_item (split_on (str ",") line1) = Some field ->
  TestParser.clean_name field = [] ->
  is_comment_line line2 = false ->
  (forall tok, last_item (split_ws line2) = Some tok -> is_broken_vuid tok = false) ->
  existsb (contains line2) triggers = false ->
  TestParser.parse_lines triggers [line1; line2] st
  = Ok {| TestParser.test_to_errors :=
            <[ [] := test_vuid_list line2 ]> (TestParser.test_to_errors st);
          TestParser.grab_next_line := false;
          TestParser.testname := [];
          TestParser.prepend := None |}.
Proof.
  intros Hp Hc1 Hb1 Ht1 Hf Hn Hc2 Hb2 Ht2.
  assert (forall st0 line,
            TestParser.prepend st0 = None -> is_comment_line line = false ->
            (forall tok, last_item (split_ws line) = Some tok -> is_broken_vuid tok = false) ->
            TestParser.parse_line triggers st0 line = TestParser.declare triggers st0 line)
    as Hdecl.
  { intros st0 line Hp0 Hc Hb. unfold TestParser.parse_line, TestParser.check_broken.
    rewrite Hc, Hp0. destruct (contains line VUID_marker) eqn:Hm; [|done].
    destruct (marker_has_token line Hm) as [tok Htok]. by rewrite Htok, (Hb tok Htok). }
  cbn [TestParser.parse_lines]. rewrite Hdecl by done.
  unfold TestParser.declare at 1. rewrite Ht1, Hf, Hn. cbn [bind].
  rewrite Hdecl by done. unfold TestParser.declare, TestParser.after_trigger.
  rewrite Ht2. cbn [TestParser.grab_next_line TestParser.testname
                    TestParser.test_to_errors TestParser.prepend].
  change (TestParser.clean_name []) with (@nil ascii).
  edestruct (collect_registered line2) as (st' & -> & Hn' & Hg' & Hp' & Hm').
  { cbn [TestParser.test_to_errors TestParser.testname]. apply lookup_insert_eq. }
  cbn [bind TestParser.test_to_errors TestParser.testname TestParser.grab_next_line
       TestParser.prepend] in *.
  rewrite insert_insert_eq in Hm'. rewrite Hp in Hp'.
  destruct st'; simpl in *. by subst.
Qed.

Lemma name_on_next_line_is_lost_witness :
  TestParser.parse_lines (TestParser.test_trigger_txt_list TestParser.default_groups)
    [str "TEST_F(VkLayerTest," ++ [nl]; str "       Foo) {" ++ [nl]] TestParser.initial
  = Ok {| TestParser.test_to_errors :=
            <[ [] := test_vuid_list (str "       Foo) {" ++ [nl]) ]>
              (TestParser.test_to_errors TestParser.initial);
          TestParser.grab_next_line := false;
          TestParser.testname := [];
          TestParser.prepend := None |}.
Proof.
  apply (name_on_next_line_is_lost _ _ _ [nl]).
  - reflexivity.
  - vm_compute. reflexivity.
  - intros tok. vm_compute. intros [= <-]. reflexivity.
  - vm_compute. reflexivity.
  - vm_compute. reflexivity.
  - vm_compute. reflexivity.
  - vm_compute. reflexivity.
  - intros tok. vm_compute. intros [= <-]. reflexivity.
  - vm_compute. reflexivity.
Defined.

(* ===================================================================== *)
(** ** The database: what a load keeps *)
(* ===================================================================== *)

Section DatabaseFacts.

Import ValidationDatabase.

Lemma read_lines_app l1 l2 st :
  read_lines (l1 ++ l2) st = let* st' := read_lines l1 st in read_lines l2 st'.
Proof.
  revert st; induction l1 as [|l l1 IH]; intros st; simpl; [done|].
  destruct (read_line st l); simpl; [apply IH|done].
Qed.

(** The lines [read] passes over: comments and blank lines. *)
Definition skipped (raw : pystr) : bool :=
  startswith (strip raw) (str "#") || pystr_eqb [] (strip raw).

Lemma read_line_skipped st raw : skipped raw = true -> read_line st raw = Ok st.
Proof. unfold skipped, read_line. by intros ->. Qed.

(** The derived sets and the test table only name identifiers that have a
    record. *)
Definition sets_in_dict (st : state) : Prop :=
  db_implemented_vuids st ⊆ dom (db_dict st)
  /\ db_unimplemented_implicit st ⊆ dom (db_dict st)
  /\ db_invalid_implemented st ⊆ dom (db_dict st)
  /\ dom (db_vuid_to_tests st) ⊆ dom (db_dict st).

Definition sentinels : list pystr := [str "unknown"; str "none"; str "nottestable"].

(** Each record agrees with the derived sets and with the test table. *)
Definition record_ok (st : state) (k : pystr) (e : db_entry) : Prop :=
  (check_implemented e = str "Y" -> k ∈ db_implemented_vuids st)
  /\ (check_implemented e <> str "Y" -> contains (note e) (str "implicit") = true ->
      k ∈ db_unimplemented_implicit st)
  /\ (in_list (check_implemented e) [str "Y"; str "N"] = false ->
      k ∈ db_invalid_implemented st)
  /\ (in_list (lower (testname e)) sentinels = false ->
      db_vuid_to_tests st !! k = Some (split_on (str ",") (testname e))).

Definition records_ok (st : state) : Prop := map_Forall (record_ok st) (db_dict st).

Lemma pystr_eqb_true a b : pystr_eqb a b = true <-> a = b.
Proof. unfold pystr_eqb. apply bool_decide_eq_true. Qed.

Lemma pystr_eqb_false a b : pystr_eqb a b = false <-> a <> b.
Proof. unfold pystr_eqb. apply bool_decide_eq_false. Qed.

Lemma store_sets_in_dict st k e : sets_in_dict st -> sets_in_dict (store st k e).
Proof.
  intros (H1 & H2 & H3 & H4). unfold sets_in_dict, store.
  cbn [db_dict db_vuid_to_tests db_implemented_vuids db_unimplemented_implicit
         db_invalid_implemented stdout check_implemented testname note].
  rewrite dom_insert_L.
  split; [|split; [|split]].
  - destruct (pystr_eqb _ (check_implemented e)); set_solver.
  - destruct (pystr_eqb _ (check_implemented e)); [set_solver|].
    destruct (contains (note e) _); set_solver.
  - destruct (in_list (check_implemented e) _); set_solver.
  - destruct (in_list (lower (testname e)) _); [set_solver|]. rewrite dom_insert_L. set_solver.
Qed.

Lemma store_records_ok st k e : records_ok st -> records_ok (store st k e).
Proof.
  intros H k' e' Hk'. unfold store in Hk'. cbn [db_dict] in Hk'.
  apply lookup_insert_Some in Hk' as [[<- <-]|[Hne Hk']].
  - unfold record_ok, store.
    cbn [db_dict db_vuid_to_tests db_implemented_vuids db_unimplemented_implicit
         db_invalid_implemented stdout check_implemented testname note].
    split; [|split; [|split]].
    + intros ->. change (pystr_eqb (str "Y") (str "Y")) with true. set_solver.
    + intros Hy Hi. rewrite Hi.
      destruct (pystr_eqb _ (check_implemented e)) eqn:E.
      * apply pystr_eqb_true in E. congruence.
      * set_solver.
    + intros ->. set_solver.
    + unfold sentinels. intros ->. apply lookup_insert_eq.
  - destruct (H k' e' Hk') as (R1 & R2 & R3 & R4).
    unfold record_ok, store.
    cbn [db_dict db_vuid_to_tests db_implemented_vuids db_unimplemented_implicit
         db_invalid_implemented stdout check_implemented testname note].
    split; [|split; [|split]].
    + intros Hy. specialize (R1 Hy).
      destruct (pystr_eqb _ (check_implemented e)); set_solver.
    + intros Hy Hi. specialize (R2 Hy Hi).
      destruct (pystr_eqb _ (check_implemented e)); [done|].
      destruct (contains (note e) _); set_solver.
    + intros Hv. specialize (R3 Hv).
      destruct (in_list (check_implemented e) _); set_solver.
    + intros Ht. specialize (R4 Ht).
      destruct (in_list (lower (testname e)) _); [done|].
      by rewrite lookup_insert_ne.
Qed.

Lemma print_sets_in_dict st msg : sets_in_dict st -> sets_in_dict (print st msg).
Proof. done. Qed.

Lemma print_records_ok st msg : records_ok st -> records_ok (print st msg).
Proof. done. Qed.

(** A property kept by [store] and by [print] holds of whatever [read]
    returns, and [read] fails with [IndexError] only. *)
Lemma read_lines_keeps (P : state -> Prop) :
  (forall st k e, P st -> P (store st k e)) ->
  (forall st msg, P st -> P (print st msg)) ->
  forall lines st, P st ->
    match read_lines lines st with
    | Ok st' => P st'
    | Raise e => e = IndexError
    end.
Proof.
  intros Hstore Hprint lines. induction lines as [|raw lines IH]; intros st HP; [done|].
  cbn [read_lines].
  assert (match read_line st raw with Ok st' => P st' | Raise e => e = IndexError end) as H.
  { unfold read_line. destruct (_ || _); [done|].
    set (st1 := if _ =? 8 then st else _).
    assert (P st1) as HP1 by (unfold st1; destruct (_ =? 8); auto).
    clearbody st1. unfold item.
    destruct (split_on delimiter (strip raw))
      as [|f0 [|f1 [|f2 [|f3 [|f4 [|f5 [|f6 [|f7 fs]]]]]]]]; simpl; auto. }
  destruct (read_line st raw); cbn [bind]; [by apply IH|done].
Qed.

End DatabaseFacts.

(** X12. Whatever [read] returns, every identifier of the implemented
    set, of the implicit unimplemented set, of the invalid flag set and of
    the test table has a record in the database dictionary; and [read]
    fails with an [IndexError] (a line of too few fields) only. *)
Theorem database_sets_have_records (lines : list pystr) :
  match ValidationDatabase.read lines with
  | Ok st =>
      ValidationDatabase.db_implemented_vuids st ⊆ dom (ValidationDatabase.db_dict st)
      /\ ValidationDatabase.db_unimplemented_implicit st
         ⊆ dom (ValidationDatabase.db_dict st)
      /\ ValidationDatabase.db_invalid_implemented st
         ⊆ dom (ValidationDatabase.db_dict st)
      /\ dom (ValidationDatabase.db_vuid_to_tests st)
         ⊆ dom (ValidationDatabase.db_dict st)
  | Raise e => e = IndexError
  end.
Proof.
  apply (read_lines_keeps sets_in_dict).
  - intros. by apply store_sets_in_dict.
  - done.
  - unfold sets_in_dict. simpl. set_solver.
Qed.

(** X13. Whatever [read] returns, each record agrees with the derived
    tables: a record flagged Y is in the implemented set; a record not
    flagged Y whose note contains "implicit" is in the implicit
    unimplemented set; a record whose flag is neither Y nor N is in the
    invalid flag set; a record whose test field, in lower case, is not
    unknown, none or nottestable has that field, split at its commas, in
    the test table. *)
Theorem database_records_agree (lines : list pystr) :
  match ValidationDatabase.read lines with
  | Ok st => map_Forall (record_ok st) (ValidationDatabase.db_dict st)
  | Raise e => e = IndexError
  end.
Proof.
  apply (read_lines_keeps records_ok).
  - intros. by apply store_records_ok.
  - done.
  - apply map_Forall_empty.
Qed.

(** X14. Comment lines and blank lines can be added anywhere in the
    database without changing what [read] returns. *)
Theorem database_skips_comments (l1 l2 : list pystr) (raw : pystr) :
  skipped raw = true ->
  ValidationDatabase.read (l1 ++ raw :: l2) = ValidationDatabase.read (l1 ++ l2).
Proof.
  intros H. unfold ValidationDatabase.read. rewrite !read_lines_app.
  destruct (ValidationDatabase.read_lines l1 ValidationDatabase.initial); [|done].
  cbn [bind ValidationDatabase.read_lines]. by rewrite read_line_skipped.
Qed.

Lemma database_skips_comments_witness :
  ValidationDatabase.read
    (scenario_db "VUID-vkFoo-a-00001" ++ (str "   " ++ [nl]) :: scenario_db "VUID-vkBar-b-00002")
  = ValidationDatabase.read
      (scenario_db "VUID-vkFoo-a-00001" ++ scenario_db "VUID-vkBar-b-00002").
Proof. apply database_skips_comments. vm_compute. reflexivity. Defined.

(** X15. The last line for an identifier wins: after a line of eight
    fields the record of its identifier holds the fields of that line,
    the records of the other identifiers are untouched and nothing is
    printed. *)
Theorem database_last_line_wins
  (lines : list pystr) (st : ValidationDatabase.state) (raw : pystr)
  (f0 f1 f2 f3 f4 f5 f6 f7 : pystr) :
  ValidationDatabase.read lines = Ok st ->
  skipped raw = false ->
  split_on ValidationDatabase.delimiter (strip raw) = [f0; f1; f2; f3; f4; f5; f6; f7] ->
  exists st',
    ValidationDatabase.read (lines ++ [raw]) = Ok st'
    /\ ValidationDatabase.db_dict st' !! f4
       = Some (ValidationDatabase.mk_entry f0 f1 f2 f3 f5 f6 f7)
    /\ (forall k, k <> f4 ->
          ValidationDatabase.db_dict st' !! k = ValidationDatabase.db_dict st !! k)
    /\ ValidationDatabase.stdout st' = ValidationDatabase.stdout st.
Proof.
  intros Hr Hs E. unfold ValidationDatabase.read in *. rewrite read_lines_app, Hr.
  cbn [bind ValidationDatabase.read_lines]. unfold ValidationDatabase.read_line.
  unfold skipped in Hs. rewrite Hs, E. cbn [length Nat.eqb ValidationDatabase.item bind].
  cbn [lookup list_lookup bind]. eexists. split; [reflexivity|].
  unfold ValidationDatabase.store. cbn [ValidationDatabase.db_dict ValidationDatabase.stdout].
  split; [apply lookup_insert_eq|]. split; [|done].
  intros k Hk. by rewrite lookup_insert_ne.
Qed.

Lemma database_last_line_wins_witness :
  exists st',
    ValidationDatabase.read
      (scenario_db "VUID-vkFoo-a-00001"
       ++ [db_line_of ["E9"; "N"; "None"; "vkFoo"; "VUID-vkFoo-a-00001"; "ext"; "m"; "n"]%string])
    = Ok st'
    /\ ValidationDatabase.db_dict st' !! str "VUID-vkFoo-a-00001"
       = Some (ValidationDatabase.mk_entry (str "E9") (str "N") (str "None") (str "vkFoo")
                 (str "ext") (str "m") (str "n"))
    /\ (forall k, k <> str "VUID-vkFoo-a-00001" ->
          ValidationDatabase.db_dict st' !! k
          = ValidationDatabase.db_dict
              (ValidationDatabase.store ValidationDatabase.initial (str "VUID-vkFoo-a-00001")
                 (ValidationDatabase.mk_entry (str "VALIDATION_ERROR_1") (str "Y")
                    (str "None") (str "vkDestroyInstance") (str "core") (str "msg")
                    (str "note"))) !! k)
    /\ ValidationDatabase.stdout st'
       = ValidationDatabase.stdout
           (ValidationDatabase.store ValidationDatabase.initial (str "VUID-vkFoo-a-00001")
              (ValidationDatabase.mk_entry (str "VALIDATION_ERROR_1") (str "Y")
                 (str "None") (str "vkDestroyInstance") (str "core") (str "msg")
                 (str "note"))).
Proof.
  apply (database_last_line_wins (scenario_db "VUID-vkFoo-a-00001")).
  - vm_compute. reflexivity.
  - vm_compute. reflexivity.
  - vm_compute. reflexivity.
Defined.

Section DatabaseGrows.

Import ValidationDatabase.

(** The tables of [st] are within those of [st']. *)
Definition grown (st st' : state) : Prop :=
  dom (db_dict st) ⊆ dom (db_dict st')
  /\ db_implemented_vuids st ⊆ db_implemented_vuids st'
  /\ db_unimplemented_implicit st ⊆ db_unimplemented_implicit st'
  /\ db_invalid_implemented st ⊆ db_invalid_implemented st'
  /\ dom (db_vuid_to_tests st) ⊆ dom (db_vuid_to_tests st').

Lemma store_grown st0 st k e : grown st0 st -> grown st0 (store st k e).
Proof.
  intros (H1 & H2 & H3 & H4 & H5). unfold grown, store.
  cbn [db_dict db_vuid_to_tests db_implemented_vuids db_unimplemented_implicit
       db_invalid_implemented].
  rewrite dom_insert_L. split; [|split; [|split; [|split]]].
  - set_solver.
  - destruct (pystr_eqb _ (check_implemented e)); set_solver.
  - destruct (pystr_eqb _ (check_implemented e)); [set_solver|].
    destruct (contains (note e) _); set_solver.
  - destruct (in_list (check_implemented e) _); set_solver.
  - destruct (in_list (lower (ValidationDatabase.testname e)) _); [set_solver|].
    rewrite dom_insert_L. set_solver.
Qed.

End DatabaseGrows.

(** X16. A load never takes anything back: the records and the derived
    tables after more lines contain those before them.  An identifier
    once flagged Y stays in the implemented set when a later line flags
    it N. *)
Theorem database_only_grows (lines more : list pystr)
  (st st' : ValidationDatabase.state) :
  ValidationDatabase.read lines = Ok st ->
  ValidationDatabase.read (lines ++ more) = Ok st' ->
  dom (ValidationDatabase.db_dict st) ⊆ dom (ValidationDatabase.db_dict st')
  /\ ValidationDatabase.db_implemented_vuids st ⊆ ValidationDatabase.db_implemented_vuids st'
  /\ ValidationDatabase.db_unimplemented_implicit st
     ⊆ ValidationDatabase.db_unimplemented_implicit st'
  /\ ValidationDatabase.db_invalid_implemented st
     ⊆ ValidationDatabase.db_invalid_implemented st'
  /\ dom (ValidationDatabase.db_vuid_to_tests st)
     ⊆ dom (ValidationDatabase.db_vuid_to_tests st').
Proof.
  unfold ValidationDatabase.read. intros H1 H2. rewrite read_lines_app, H1 in H2.
  cbn [bind] in H2.
  pose proof (read_lines_keeps (grown st) (store_grown st) (fun _ _ H => H) more st) as H.
  rewrite H2 in H. apply H. by repeat split.
Qed.

Lemma database_only_grows_witness :
  exists st st',
    ValidationDatabase.read (scenario_db "VUID-vkFoo-a-00001") = Ok st
    /\ ValidationDatabase.read
         (scenario_db "VUID-vkFoo-a-00001"
          ++ [db_line_of ["E9"; "N"; "None"; "vkFoo"; "VUID-vkFoo-a-00001"; "ext"; "m"; "n"]%string])
       = Ok st'
    /\ dom (ValidationDatabase.db_dict st) ⊆ dom (ValidationDatabase.db_dict st')
    /\ ValidationDatabase.db_implemented_vuids st ⊆ ValidationDatabase.db_implemented_vuids st'
    /\ ValidationDatabase.db_unimplemented_implicit st
       ⊆ ValidationDatabase.db_unimplemented_implicit st'
    /\ ValidationDatabase.db_invalid_implemented st
       ⊆ ValidationDatabase.db_invalid_implemented st'
    /\ dom (ValidationDatabase.db_vuid_to_tests st)
       ⊆ dom (ValidationDatabase.db_vuid_to_tests st').
Proof.
  eexists _, _. split; [vm_compute; reflexivity|]. split; [vm_compute; reflexivity|].
  apply (database_only_grows (scenario_db "VUID-vkFoo-a-00001")
           [db_line_of ["E9"; "N"; "None"; "vkFoo"; "VUID-vkFoo-a-00001"; "ext"; "m"; "n"]%string]).
  - vm_compute. reflexivity.
  - vm_compute. reflexivity.
Defined.

(* ===================================================================== *)
(** ** main: when it returns and what it reports *)
(* ===================================================================== *)

Section Report.

Import Main ValidationJSON.

(** The fields of the report, as [reconcile] computes them. *)
Lemma reconcile_fields verbose val_db vuids val_source test_parser rep :
  reconcile verbose val_db vuids val_source test_parser = Ok rep ->
  bad_testnames rep
  = map snd (filter (fun vt => TestParser.test_to_errors test_parser !! vt.2 = None)
               (claimed_tests (ValidationDatabase.db_vuid_to_tests val_db)))
  /\ tests_missing_vuid rep
     = fold_left (note_missing (TestParser.test_to_errors test_parser))
         (claimed_tests (ValidationDatabase.db_vuid_to_tests val_db)) ∅
  /\ multiple_uses rep
     = existsb is_duplicate (map_to_list (ValidationSource.vuid_count_dict val_source))
  /\ imp_not_found rep
     = ValidationDatabase.db_implemented_vuids val_db
       ∖ dom (ValidationSource.vuid_count_dict val_source)
  /\ imp_not_claimed rep
     = dom (ValidationSource.vuid_count_dict val_source)
       ∖ ValidationDatabase.db_implemented_vuids val_db.
Proof.
  unfold reconcile. cbv zeta.
  destruct (0 <? size (ValidationDatabase.db_invalid_implemented val_db)).
  - destruct (filter _ (elements _)); [|intros [=]]. cbn [bind].
    destruct (verbose && _); [intros [=]|]. cbn [bind]. by intros [= <-].
  - cbn [bind]. destruct (verbose && _); [intros [=]|]. cbn [bind]. by intros [= <-].
Qed.

Lemma in_list_true (s : pystr) (l : list pystr) : in_list s l = true <-> s ∈ l.
Proof.
  unfold in_list. rewrite existsb_exists. split.
  - intros (x & Hx & E). apply pystr_eqb_true in E as ->. by apply list_elem_of_In.
  - intros H. exists s. split; [by apply list_elem_of_In|by apply pystr_eqb_true].
Qed.

(** When the sets read from the database have records, the report of
    the invalid flags finds each of them. *)
Lemma reconcile_returns_iff verbose val_db vuids val_source test_parser :
  ValidationDatabase.db_invalid_implemented val_db
    ⊆ dom (ValidationDatabase.db_dict val_db) ->
  match reconcile verbose val_db vuids val_source test_parser with
  | Ok _ => verbose = false \/ ValidationDatabase.db_dict val_db <> ∅
  | Raise e =>
      e = ZeroDivisionError /\ verbose = true /\ ValidationDatabase.db_dict val_db = ∅
  end.
Proof.
  intros Hsub. unfold reconcile. cbv zeta.
  assert (filter (fun k => ValidationDatabase.db_dict val_db !! k = None)
            (elements (ValidationDatabase.db_invalid_implemented val_db)) = []) as ->.
  { apply elem_of_nil_inv. intros k [Hk Hin]%list_elem_of_filter.
    apply elem_of_elements, Hsub, elem_of_dom in Hin as [? Hin]. congruence. }
  assert ((if 0 <? size (ValidationDatabase.db_invalid_implemented val_db)
           then Ok 1%Z else Ok 0%Z)
          = Ok (if 0 <? size (ValidationDatabase.db_invalid_implemented val_db)
                then 1%Z else 0%Z)) as -> by (by destruct (0 <? _)).
  cbn [bind].
  destruct verbose; cbn [andb]; [|cbn [bind]; by left].
  destruct (size (ValidationDatabase.db_dict val_db) =? 0) eqn:E; cbn [bind].
  - apply Nat.eqb_eq, map_size_empty_iff in E. done.
  - right. intros H. rewrite H, map_size_empty in E. done.
Qed.

End Report.

Section ReportLists.

Import Main.

(** The identifier [v] is listed under the test name [t]. *)
Definition listed (acc : gmap pystr (list pystr)) (t v : pystr) : Prop :=
  exists l, acc !! t = Some l /\ v ∈ l.

Lemma note_missing_listed tests acc v' t' t v :
  listed (note_missing tests acc (v', t')) t v
  <-> listed acc t v
      \/ ((v', t') = (v, t) /\ exists tv, tests !! t = Some tv /\ v ∉ tv).
Proof.
  unfold note_missing. cbn [fst snd].
  destruct (tests !! t') as [tv|] eqn:Et.
  - destruct (in_list v' tv) eqn:Ein.
    + split; [by left|]. intros [H|([= -> ->] & tv' & Etv & Hn)]; [done|].
      apply in_list_true in Ein. congruence.
    + assert (v' ∉ tv) as Hv' by (rewrite <- in_list_true; congruence).
      unfold listed. split.
      * intros (l & Hl & Hin). apply lookup_insert_Some in Hl as [[<- <-]|[Hne Hl]].
        -- apply elem_of_app in Hin as [Hin|Hin%list_elem_of_singleton].
           ++ left. destruct (acc !! t') as [l0|]; [eauto|by apply elem_of_nil in Hin].
           ++ subst. right. eauto.
        -- left. eauto.
      * intros [(l & Hl & Hin)|([= -> ->] & _)].
        -- destruct (decide (t' = t)) as [->|Hne].
           ++ rewrite lookup_insert_eq, Hl. simpl. eexists. split; [done|].
              apply elem_of_app. by left.
           ++ rewrite lookup_insert_ne by done. eauto.
        -- rewrite lookup_insert_eq. eexists. split; [done|].
           apply elem_of_app. right. by apply list_elem_of_singleton.
  - split; [by left|]. intros [H|([= -> ->] & tv & Etv & _)]; [done|congruence].
Qed.

Lemma fold_missing_listed tests claimed acc t v :
  listed (fold_left (note_missing tests) claimed acc) t v
  <-> listed acc t v
      \/ ((v, t) ∈ claimed /\ exists tv, tests !! t = Some tv /\ v ∉ tv).
Proof.
  revert acc; induction claimed as [|[v' t'] claimed IH]; intros acc; cbn [fold_left].
  - split; [by left|]. intros [H|[H _]]; [done|by apply elem_of_nil in H].
  - rewrite IH, note_missing_listed. split.
    + intros [[H|[E H]]|[Hin H]].
      * by left.
      * right. split; [rewrite E; by left|done].
      * right. split; [by right|done].
    + intros [H|[Hin H]]; [by left; left|].
      apply elem_of_cons in Hin as [E|Hin]; [left; right; by rewrite E|by right].
Qed.

End ReportLists.

(** X17. When the database, validusage.json and the tests are read, [main]
    returns unless it runs in verbose mode on a database without any
    record, in which case the percentage of implemented checks divides by
    zero; it never stops on the look-up of an invalid flag. *)
Theorem main_returns_or_divides_by_zero
  (verbose : bool) (db_lines : list pystr) (json_file : option ValidationJSON.json)
  (source_files : list (pystr * list pystr)) (test_lines : list pystr)
  (val_db : ValidationDatabase.state) (vuids : gset ValidationJSON.scalar)
  (test_parser : TestParser.state) :
  ValidationDatabase.read db_lines = Ok val_db ->
  ValidationJSON.read json_file = Ok vuids ->
  TestParser.parse TestParser.default_groups [test_lines] = Ok test_parser ->
  match Main.main verbose db_lines json_file source_files test_lines with
  | Ok _ => verbose = false \/ ValidationDatabase.db_dict val_db <> ∅
  | Raise e =>
      e = ZeroDivisionError /\ verbose = true /\ ValidationDatabase.db_dict val_db = ∅
  end.
Proof.
  intros Hdb Hjson Htests. unfold Main.main. rewrite Hdb, Hjson.
  destruct (scan_files_total source_files ValidationSource.initial) as [val_source E].
  unfold ValidationSource.parse. rewrite E, Htests. cbn [bind].
  apply reconcile_returns_iff.
  pose proof (read_lines_keeps sets_in_dict
                (fun st k e H => store_sets_in_dict st k e H) (fun _ _ H => H)
                db_lines ValidationDatabase.initial) as H.
  unfold ValidationDatabase.read in Hdb. rewrite Hdb in H.
  apply H. unfold sets_in_dict. simpl. set_solver.
Qed.

Lemma main_returns_or_divides_by_zero_witness :
  match Main.main true [str "# empty database" ++ [nl]]
          (Some (ValidationJSON.JObj [(str "version", ValidationJSON.JStr (str "1"))]))
          [] scenario_tests with
  | Ok _ => true = false \/ ValidationDatabase.db_dict ValidationDatabase.initial <> ∅
  | Raise e =>
      e = ZeroDivisionError /\ true = true
      /\ ValidationDatabase.db_dict ValidationDatabase.initial = ∅
  end.
Proof.
  apply (main_returns_or_divides_by_zero true [str "# empty database" ++ [nl]]
           (Some (ValidationJSON.JObj [(str "version", ValidationJSON.JStr (str "1"))]))
           [] scenario_tests ValidationDatabase.initial ∅
           (TestParser.register TestParser.initial (str "Foo"))).
  - reflexivity.
  - reflexivity.
  - vm_compute. reflexivity.
Defined.

(** X18. The test names reported as invalid are exactly the names the
    database gives for some identifier that are not keys of the test
    map. *)
Theorem bad_testnames_are_unknown_tests
  (verbose : bool) (val_db : ValidationDatabase.state)
  (vuids : gset ValidationJSON.scalar) (val_source : ValidationSource.state)
  (test_parser : TestParser.state) (rep : Main.report) (t : pystr) :
  Main.reconcile verbose val_db vuids val_source test_parser = Ok rep ->
  t ∈ Main.bad_testnames rep
  <-> exists vuid tests,
        ValidationDatabase.db_vuid_to_tests val_db !! vuid = Some tests
        /\ t ∈ tests
        /\ TestParser.test_to_errors test_parser !! t = None.
Proof.
  intros H. destruct (reconcile_fields _ _ _ _ _ _ H) as (-> & _).
  rewrite list_elem_of_In, in_map_iff. split.
  - intros ([v t'] & <- & Hin). apply list_elem_of_In, list_elem_of_filter in Hin as [Hn Hin].
    apply elem_of_claimed_tests in Hin as (tests & Hm & Ht). eauto.
  - intros (vuid & tests & Hm & Ht & Hn). exists (vuid, t). split; [done|].
    apply list_elem_of_In, list_elem_of_filter. split; [done|].
    apply elem_of_claimed_tests. eauto.
Qed.

(** X19. An identifier is listed under a test name among the tests that
    do not check their identifiers exactly when the database gives that
    test name for the identifier, the test is in the test map, and the
    identifier is not among those the test refers to. *)
Theorem tests_missing_vuid_listing
  (verbose : bool) (val_db : ValidationDatabase.state)
  (vuids : gset ValidationJSON.scalar) (val_source : ValidationSource.state)
  (test_parser : TestParser.state) (rep : Main.report) (t v : pystr) :
  Main.reconcile verbose val_db vuids val_source test_parser = Ok rep ->
  (exists l, Main.tests_missing_vuid rep !! t = Some l /\ v ∈ l)
  <-> exists tests test_vuids,
        ValidationDatabase.db_vuid_to_tests val_db !! v = Some tests
        /\ t ∈ tests
        /\ TestParser.test_to_errors test_parser !! t = Some test_vuids
        /\ v ∉ test_vuids.
Proof.
  intros H. destruct (reconcile_fields _ _ _ _ _ _ H) as (_ & -> & _).
  fold (listed (fold_left (Main.note_missing (TestParser.test_to_errors test_parser))
                  (Main.claimed_tests (ValidationDatabase.db_vuid_to_tests val_db)) ∅) t v).
  rewrite fold_missing_listed, elem_of_claimed_tests. split.
  - intros [(l & Hl & _)|((tests & Hm & Ht) & tv & Htv & Hn)]; [by rewrite lookup_empty in Hl|].
    eauto 6.
  - intros (tests & tv & Hm & Ht & Htv & Hn). right. eauto 6.
Qed.

(** X20. In a run of [main] the flag of multiple uses is set exactly when
    some identifier was found more than once in the sources: the
    allow-list excludes none of them. *)
Theorem multiple_uses_iff_some_duplicate
  (verbose : bool) (db_lines : list pystr) (json_file : option ValidationJSON.json)
  (source_files : list (pystr * list pystr)) (test_lines : list pystr)
  (rep : Main.report) :
  Main.main verbose db_lines json_file source_files test_lines = Ok rep ->
  exists val_source,
    ValidationSource.parse source_files = Ok val_source
    /\ (Main.multiple_uses rep = true
        <-> exists k e, ValidationSource.vuid_count_dict val_source !! k = Some e
                        /\ 1 < ValidationSource.count e).
Proof.
  unfold Main.main. intros H.
  destruct (ValidationDatabase.read db_lines) as [val_db|]; [|discriminate].
  destruct (ValidationJSON.read json_file) as [vuids|]; [|discriminate].
  destruct (allow_list_never_applies source_files) as (val_source & E & Hall).
  rewrite E in H.
  destruct (TestParser.parse TestParser.default_groups [test_lines])
    as [test_parser|]; [|discriminate].
  cbn [bind] in H. exists val_source. split; [done|].
  destruct (reconcile_fields _ _ _ _ _ _ H) as (_ & _ & -> & _).
  rewrite existsb_exists. split.
  - intros ([k e] & Hin & Hd). apply list_elem_of_In, elem_of_map_to_list in Hin.
    rewrite (Hall k e Hin) in Hd. apply Nat.ltb_lt in Hd. eauto.
  - intros (k & e & Hin & Hc). exists (k, e). split.
    + by apply list_elem_of_In, elem_of_map_to_list.
    + rewrite (Hall k e Hin). by apply Nat.ltb_lt.
Qed.

Lemma bad_testnames_are_unknown_tests_witness :
  exists rep,
    Main.reconcile false
      (ValidationDatabase.store ValidationDatabase.initial (str "VUID-vkFoo-a-00001")
         (ValidationDatabase.mk_entry (str "E1") (str "Y") (str "TestFoo") (str "vkFoo")
            (str "core") (str "msg") (str "note")))
      ∅ ValidationSource.initial TestParser.initial = Ok rep
    /\ (str "TestFoo" ∈ Main.bad_testnames rep
        <-> exists vuid tests,
              ValidationDatabase.db_vuid_to_tests
                (ValidationDatabase.store ValidationDatabase.initial
                   (str "VUID-vkFoo-a-00001")
                   (ValidationDatabase.mk_entry (str "E1") (str "Y") (str "TestFoo")
                      (str "vkFoo") (str "core") (str "msg") (str "note")))
                !! vuid = Some tests
              /\ str "TestFoo" ∈ tests
              /\ TestParser.test_to_errors TestParser.initial !! str "TestFoo" = None).
Proof.
  eexists. split; [vm_compute; reflexivity|].
  apply (bad_testnames_are_unknown_tests false _ ∅ ValidationSource.initial).
  vm_compute. reflexivity.
Defined.

Lemma tests_missing_vuid_listing_witness :
  exists rep,
    Main.reconcile false
      (ValidationDatabase.store ValidationDatabase.initial (str "VUID-vkFoo-a-00001")
         (ValidationDatabase.mk_entry (str "E1") (str "Y") (str "Foo") (str "vkFoo")
            (str "core") (str "msg") (str "note")))
      ∅ ValidationSource.initial
      (TestParser.register TestParser.initial (str "Foo")) = Ok rep
    /\ ((exists l, Main.tests_missing_vuid rep !! str "Foo" = Some l
                   /\ str "VUID-vkFoo-a-00001" ∈ l)
        <-> exists tests test_vuids,
              ValidationDatabase.db_vuid_to_tests
                (ValidationDatabase.store ValidationDatabase.initial
                   (str "VUID-vkFoo-a-00001")
                   (ValidationDatabase.mk_entry (str "E1") (str "Y") (str "Foo")
                      (str "vkFoo") (str "core") (str "msg") (str "note")))
                !! str "VUID-vkFoo-a-00001" = Some tests
              /\ str "Foo" ∈ tests
              /\ TestParser.test_to_errors
                   (TestParser.register TestParser.initial (str "Foo")) !! str "Foo"
                 = Some test_vuids
              /\ str "VUID-vkFoo-a-00001" ∉ test_vuids).
Proof.
  eexists. split; [vm_compute; reflexivity|].
  apply (tests_missing_vuid_listing false _ ∅ ValidationSource.initial).
  vm_compute. reflexivity.
Defined.

Lemma multiple_uses_iff_some_duplicate_witness :
  exists rep,
    Main.main false (scenario_db "VUID-vkFoo-a-00001") (scenario_json "VUID-vkFoo-a-00001")
      [(str "a.cpp", [scenario_use "VUID-vkFoo-a-00001"; scenario_use "VUID-vkFoo-a-00001"])]
      scenario_tests = Ok rep
    /\ exists val_source,
         ValidationSource.parse
           [(str "a.cpp", [scenario_use "VUID-vkFoo-a-00001";
                           scenario_use "VUID-vkFoo-a-00001"])] = Ok val_source
         /\ (Main.multiple_uses rep = true
             <-> exists k e, ValidationSource.vuid_count_dict val_source !! k = Some e
                             /\ 1 < ValidationSource.count e).
Proof.
  eexists. split; [vm_compute; reflexivity|].
  apply (multiple_uses_iff_some_duplicate false (scenario_db "VUID-vkFoo-a-00001")
           (scenario_json "VUID-vkFoo-a-00001") _ scenario_tests).
  vm_compute. reflexivity.
Defined.

(* ===================================================================== *)
(** ** validusage.json: what the walk finds *)
(* ===================================================================== *)

(** The documents the walk is written for: a mapping whose vuid entries
    hold scalars and whose other entries hold scalars, mappings of the
    same kind, or arrays of scalars and of such mappings. *)
Fixpoint regular (d : ValidationJSON.json) : bool :=
  match d with
  | ValidationJSON.JObj items =>
      forallb
        (fun kv =>
           match kv with
           | (k, v) =>
               if pystr_eqb k ValidationJSON.vuid_key then is_scalar v
               else match v with
                    | ValidationJSON.JArr elems => forallb regular elems
                    | _ => regular v
                    end
           end)
        items
  | ValidationJSON.JArr _ => false
  | _ => true
  end.

Lemma regular_walk (d : ValidationJSON.json) :
  (regular d = true -> ValidationJSON.ExtractVUIDs d = all_vuid_values d)
  /\ match d with
     | ValidationJSON.JArr elems =>
         forallb regular elems = true ->
         flat_map ValidationJSON.ExtractVUIDs elems = flat_map all_vuid_values elems
     | _ => True
     end.
Proof.
  induction d as [| | | |elems IH|items IH] using json_nested_ind;
    try (split; [done|exact I]).
  - split; [done|].
    induction IH as [|e elems [He _] _ IHe]; cbn [flat_map forallb]; [done|].
    intros [H1 H2]%andb_true_iff. by rewrite He, IHe.
  - split; [|exact I]. cbn [ValidationJSON.ExtractVUIDs all_vuid_values regular].
    induction IH as [|[k x] items Hx _ IHitems]; cbn [flat_map forallb]; [done|].
    intros [H1 H2]%andb_true_iff. rewrite IHitems by done. f_equal.
    cbn [snd] in Hx. destruct Hx as [Hx1 Hx2].
    destruct (pystr_eqb k ValidationJSON.vuid_key).
    + by destruct x.
    + destruct x as [| | | |elems|items']; try done.
      * cbn [all_vuid_values app]. by apply Hx2.
      * cbn [app]. by apply Hx1.
Qed.

(** X21. Every value the walk yields is the value of a vuid entry of the
    document: nothing else is added to the identifier set. *)
Theorem walk_yields_vuid_values (d : ValidationJSON.json) :
  Forall (fun v => In v (all_vuid_values d)) (ValidationJSON.ExtractVUIDs d).
Proof. apply Forall_forall. intros v Hv. by apply extract_sound, list_elem_of_In. Qed.

(** X22. On a document that is a mapping in which no array holds an array
    and no vuid entry holds an array or a mapping, the walk yields the
    values of all the vuid entries of the document, each once, in the
    order of the document. *)
Theorem walk_complete_on_regular (d : ValidationJSON.json) :
  regular d = true ->
  ValidationJSON.ExtractVUIDs d = all_vuid_values d.
Proof. apply regular_walk. Qed.

Lemma walk_complete_on_regular_witness :
  ValidationJSON.ExtractVUIDs
    (ValidationJSON.JObj
       [(str "validation",
         ValidationJSON.JObj
           [(str "vkFoo",
             ValidationJSON.JObj
               [(str "core",
                 ValidationJSON.JArr
                   [ValidationJSON.JObj
                      [(ValidationJSON.vuid_key, ValidationJSON.JStr (str "VUID-a"));
                       (str "text", ValidationJSON.JStr (str "t"))];
                    ValidationJSON.JObj
                      [(ValidationJSON.vuid_key, ValidationJSON.JStr (str "VUID-b"))]])])])])
  = all_vuid_values
      (ValidationJSON.JObj
         [(str "validation",
           ValidationJSON.JObj
             [(str "vkFoo",
               ValidationJSON.JObj
                 [(str "core",
                   ValidationJSON.JArr
                     [ValidationJSON.JObj
                        [(ValidationJSON.vuid_key, ValidationJSON.JStr (str "VUID-a"));
                         (str "text", ValidationJSON.JStr (str "t"))];
                      ValidationJSON.JObj
                        [(ValidationJSON.vuid_key, ValidationJSON.JStr (str "VUID-b"))]])])])]).
Proof. apply walk_complete_on_regular. vm_compute. reflexivity. Defined.

Lemma add_all_elem (vs : list ValidationJSON.json)
  (X Y : gset ValidationJSON.scalar) (x : ValidationJSON.scalar) :
  ValidationJSON.add_all vs X = Ok Y ->
  x ∈ Y <-> x ∈ X \/ exists v, In v vs /\ ValidationJSON.to_scalar v = Ok x.
Proof.
  revert X; induction vs as [|v vs IH]; intros X; cbn [ValidationJSON.add_all].
  - intros [= ->]. split; [by left|]. by intros [H|(v & [] & _)].
  - destruct (ValidationJSON.to_scalar v) as [y|] eqn:E; cbn [bind]; [|done].
    intros H. rewrite (IH _ H). split.
    + intros [[->%elem_of_singleton|Hx]%elem_of_union|(v' & Hin & Hv')].
      * right. exists v. split; [by left|done].
      * by left.
      * right. exists v'. split; [by right|done].
    + intros [Hx|(v' & [<-|Hin] & Hv')].
      * left. set_solver.
      * left. rewrite E in Hv'. injection Hv' as ->. set_solver.
      * right. eauto.
Qed.

(** X23. The identifier set [read] returns holds exactly the values the
    walk yields, a boolean counting as the number 1 or 0. *)
Theorem json_read_set (d : ValidationJSON.json) (vuids : gset ValidationJSON.scalar)
  (x : ValidationJSON.scalar) :
  ValidationJSON.read (Some d) = Ok vuids ->
  x ∈ vuids
  <-> exists v, In v (ValidationJSON.ExtractVUIDs d) /\ ValidationJSON.to_scalar v = Ok x.
Proof.
  unfold ValidationJSON.read.
  destruct (ValidationJSON.py_len d) as [n|]; cbn [bind]; [|done].
  destruct (n =? 0); [done|]. intros H. rewrite (add_all_elem _ _ _ x H).
  split; [intros [H0|H1]; [by apply not_elem_of_empty in H0|done]|by right].
Qed.

Lemma json_read_set_witness :
  ValidationJSON.SStr (str "VUID-a") ∈ ({[ValidationJSON.SStr (str "VUID-a")]} ∪ ∅
                                         : gset ValidationJSON.scalar)
  <-> exists v,
        In v (ValidationJSON.ExtractVUIDs
                (ValidationJSON.JObj
                   [(str "core",
                     ValidationJSON.JArr
                       [ValidationJSON.JObj
                          [(ValidationJSON.vuid_key, ValidationJSON.JStr (str "VUID-a"))]])]))
        /\ ValidationJSON.to_scalar v = Ok (ValidationJSON.SStr (str "VUID-a")).
Proof.
  apply (json_read_set
           (ValidationJSON.JObj
              [(str "core",
                ValidationJSON.JArr
                  [ValidationJSON.JObj
                     [(ValidationJSON.vuid_key, ValidationJSON.JStr (str "VUID-a"))]])])).
  reflexivity.
Defined.

(* ===================================================================== *)
(** ** ValidationSource.__init__: the files to scan *)
(* ===================================================================== *)

(** The path tried for a generated file in a build directory. *)
Definition qualified_path (build_dir source : pystr) : pystr :=
  str "../" ++ build_dir ++ str "/layers/" ++ source.

(** The loop over the build directories for one generated file: the path
    appended to [qualified_paths], if any.  [isfile] is [os.path.isfile]. *)
Fixpoint locate (isfile : pystr -> bool) (source : pystr) (dirs : list pystr)
  : list pystr :=
  match dirs with
  | [] => []
  | build_dir :: rest =>
      if isfile (qualified_path build_dir source)
      then [qualified_path build_dir source]
      else locate isfile source rest
  end.

(** [__init__]: the value of [self.source_files] when it returns; [exit(1)]
    when a generated file was found in no build directory. *)
Definition source_file_list (isfile : pystr -> bool)
  (source_files generated_source_files generated_source_dirs : list pystr)
  : result (list pystr) :=
  if 0 <? length generated_source_files then
    let qualified_paths :=
      flat_map (fun source => locate isfile source generated_source_dirs)
               generated_source_files in
    if negb (length generated_source_files =? length qualified_paths)
    then Raise (SystemExit 1)
    else Ok (source_files ++ qualified_paths)
  else Ok source_files.

(** The path [p] is the one of the first build directory that holds the
    generated file [g]. *)
Definition first_found (isfile : pystr -> bool) (dirs : list pystr) (g p : pystr) : Prop :=
  exists d ds1 ds2,
    dirs = ds1 ++ d :: ds2 /\ p = qualified_path d g /\ isfile p = true
    /\ Forall (fun d' => isfile (qualified_path d' g) = false) ds1.

Definition not_found (isfile : pystr -> bool) (dirs : list pystr) (g : pystr) : Prop :=
  Forall (fun d => isfile (qualified_path d g) = false) dirs.

Lemma locate_spec isfile g dirs :
  (locate isfile g dirs = [] /\ not_found isfile dirs g)
  \/ exists p, locate isfile g dirs = [p] /\ first_found isfile dirs g p.
Proof.
  induction dirs as [|d dirs IH]; simpl.
  - left. split; [done|constructor].
  - destruct (isfile (qualified_path d g)) eqn:E.
    + right. eexists. split; [done|]. exists d, [], dirs. by repeat split.
    + destruct IH as [[-> H]|(p & -> & d' & ds1 & ds2 & -> & -> & Hp & Hall)].
      * left. split; [done|]. by constructor.
      * right. eexists. split; [done|]. exists d', (d :: ds1), ds2.
        repeat split; [done|]. by constructor.
Qed.

Lemma locate_all isfile dirs gens :
  let q := flat_map (fun g => locate isfile g dirs) gens in
  length q <= length gens
  /\ (length q = length gens -> Forall2 (first_found isfile dirs) gens q)
  /\ (length q <> length gens -> Exists (not_found isfile dirs) gens).
Proof.
  induction gens as [|g gens (IH1 & IH2 & IH3)]; cbn [flat_map].
  - split; [done|]. split; [by constructor|done].
  - destruct (locate_spec isfile g dirs) as [[-> H]|(p & -> & H)]; cbn [app length].
    + split; [lia|]. split; [lia|]. intros _. by left.
    + split; [lia|]. split.
      * intros E. constructor; [done|]. apply IH2. lia.
      * intros E. right. apply IH3. lia.
Qed.

(** X24. [__init__] returns exactly when every generated file is found in
    some build directory: the list to scan is then the given source files
    followed by one path for each generated file, in their order, each in
    the first build directory that holds it.  Otherwise it stops with
    [exit(1)], some generated file being in none of the directories. *)
Theorem generated_sources_resolution (isfile : pystr -> bool)
  (source_files generated dirs : list pystr) :
  match source_file_list isfile source_files generated dirs with
  | Ok paths =>
      exists chosen,
        paths = source_files ++ chosen
        /\ Forall2 (first_found isfile dirs) generated chosen
  | Raise e => e = SystemExit 1 /\ Exists (not_found isfile dirs) generated
  end.
Proof.
  unfold source_file_list. destruct generated as [|g gens].
  - simpl. exists []. split; [by rewrite app_nil_r|constructor].
  - change (0 <? length (g :: gens)) with true. cbv iota zeta.
    destruct (locate_all isfile dirs (g :: gens)) as (H1 & H2 & H3). cbv zeta in *.
    destruct (length (g :: gens)
              =? length (flat_map (fun source => locate isfile source dirs) (g :: gens)))
      eqn:E; cbn [negb].
    + apply Nat.eqb_eq in E. eexists. split; [done|]. apply H2. by symmetry.
    + apply Nat.eqb_neq in E. split; [done|]. apply H3. by intros E'.
Qed.

(* ===================================================================== *)
(** ** Splitting *)
(* ===================================================================== *)

(** [sep.join(l)] *)
Definition join (sep : pystr) (l : list pystr) : pystr :=
  match l with
  | [] => []
  | x :: rest => x ++ flat_map (fun y => sep ++ y) rest
  end.

Lemma join_cons sep x l : l <> [] -> join sep (x :: l) = x ++ sep ++ join sep l.
Proof. destruct l as [|y l]; [done|]. intros _. simpl. by rewrite <- app_assoc. Qed.

Lemma split_on_aux_skip sep k cur s :
  k <= length s -> split_on_aux sep k cur s = split_on_aux sep 0 cur (drop k s).
Proof.
  revert s; induction k as [|k IH]; intros s Hk; [by rewrite drop_0|].
  destruct s as [|c s]; [simpl in Hk; lia|]. cbn [split_on_aux drop].
  apply IH. simpl in Hk. lia.
Qed.

Lemma join_split_aux sep n : sep <> [] ->
  forall s cur, length s <= n ->
    join sep (split_on_aux sep 0 cur s) = rev cur ++ s.
Proof.
  intros Hsep. induction n as [|n IH]; intros s cur Hn.
  - destruct s; [|simpl in Hn; lia]. simpl. by rewrite !app_nil_r.
  - destruct s as [|c s]; [simpl; by rewrite !app_nil_r|].
    cbn [split_on_aux]. destruct (startswith (c :: s) sep) eqn:E.
    + apply startswith_iff in E as [r Hr].
      destruct sep as [|c' sep']; [done|]. injection Hr as <- ->.
      replace (length (c :: sep') - 1) with (length sep') by (simpl; lia).
      rewrite split_on_aux_skip by (rewrite length_app; lia).
      rewrite drop_app_length.
      rewrite join_cons by apply split_on_aux_nonnil.
      rewrite IH by (simpl in Hn; rewrite length_app in Hn; lia). done.
    + rewrite IH by (simpl in Hn; lia). simpl. by rewrite <- app_assoc.
Qed.

(** X25. Splitting loses nothing: the fields of a string split at a
    non-empty separator, joined again with that separator, give the
    string. *)
Theorem join_split_on (sep s : pystr) :
  sep <> [] -> join sep (split_on sep s) = s.
Proof. intros H. by apply (join_split_aux sep (length s)). Qed.

Lemma join_split_on_witness :
  join ValidationDatabase.delimiter
    (split_on ValidationDatabase.delimiter (str "E1~^~Y~^~None~^~vkFoo~^~VUID-a~^~core~^~m~^~"))
  = str "E1~^~Y~^~None~^~vkFoo~^~VUID-a~^~core~^~m~^~".
Proof. apply join_split_on. discriminate. Defined.

Lemma split_ws_aux_tokens cur s :
  Forall (fun c => is_space c = false) cur ->
  Forall (fun tok => tok <> [] /\ Forall (fun c => is_space c = false) tok)
         (split_ws_aux cur s).
Proof.
  revert cur; induction s as [|c s IH]; intros cur Hcur; simpl.
  - destruct cur as [|d cur]; constructor; [|done]. split.
    + simpl. by destruct (rev cur).
    + by apply Forall_rev.
  - destruct (is_space c) eqn:E.
    + destruct cur as [|d cur]; [by apply IH|].
      constructor; [|by apply IH]. split.
      * simpl. by destruct (rev cur).
      * by apply Forall_rev.
    + apply IH. by constructor.
Qed.

(** X26. The tokens of a line are not empty and contain no whitespace. *)
Theorem tokens_are_black (line : pystr) :
  Forall (fun tok => tok <> [] /\ Forall (fun c => is_space c = false) tok)
         (split_ws line).
Proof. by apply split_ws_aux_tokens. Qed.
